(** * TextWeb agent-tool adapters: a shallow embedding

    The repository holds two adapters over the TextWeb HTTP server:
    [tools/crewai.py] (a module-level helper [_call] and six tool classes)
    and [tools/langchain.py] (a class [TextWebClient] and a factory
    [get_textweb_tools]).  Both decode the JSON body of the response and
    render it as one block of text.

    The embedding has three layers:
    - the Python values the adapters handle (decoded JSON, [dict.get],
      [str.rstrip], [str.join], the [str] and [repr] of a value);
    - the part of the [requests] library the adapters call (a session
      object, [get]/[post], [raise_for_status], [json]), as a state and
      exception monad over a log of the calls made and an oracle standing
      for the remote server;
    - the two source files, one module each, definition by definition. *)

From Stdlib Require Import String Ascii ZArith List Bool Arith Lia DecimalString
  Permutation.
Import ListNotations.
Open Scope string_scope.
Set Warnings "-register-all".

(* ================================================================== *)
(** ** Python values *)

(** Characters.  A Python [str] is modelled as a Rocq [string]: a sequence
    of code points below 256. *)
Definition LF : string := String "010"%char EmptyString.
Definition slash : ascii := "/"%char.
Definition backslash : ascii := "\"%char.
Definition squote : ascii := "'"%char.
Definition dquote : ascii := "034"%char.

(** The value [json.loads] gives for a JSON text: [None], [bool], [int],
    [str], [list] and [dict].  A [dict] keeps its items in insertion order,
    so it is the list of its items; the keys of a decoded JSON object are
    strings.  JSON numbers with a fraction or an exponent decode to floats,
    which are left out of the model. *)
Inductive json : Type :=
| JNull
| JBool (b : bool)
| JInt (z : Z)
| JStr (s : string)
| JList (l : list json)
| JDict (d : list (string * json)).

Definition pydict : Type := list (string * json).

(** [d.get(k, default)] on a dict. *)
Fixpoint dict_get (d : pydict) (k : string) (default : json) : json :=
  match d with
  | [] => default
  | (k', v) :: d' => if String.eqb k' k then v else dict_get d' k default
  end.

(** [k in d]. *)
Definition dict_has (d : pydict) (k : string) : bool :=
  existsb (fun kv => String.eqb (fst kv) k) d.

(** A parameter declared with a default value: an omitted argument is
    [None] and takes the default. *)
Definition default {A : Type} (arg : option A) (d : A) : A :=
  match arg with
  | Some a => a
  | None => d
  end.

(** [sep.join(parts)]. *)
Definition join (sep : string) (parts : list string) : string :=
  String.concat sep parts.

(** [s.rstrip('/')]: every trailing slash is removed. *)
Fixpoint rstrip_slash (s : string) : string :=
  match s with
  | EmptyString => EmptyString
  | String c r =>
      match rstrip_slash r with
      | EmptyString => if Ascii.eqb c slash then EmptyString else String c EmptyString
      | r' => String c r'
      end
  end.

(** *** [str] and [repr] *)

Fixpoint str_mem (c : ascii) (s : string) : bool :=
  match s with
  | EmptyString => false
  | String c' r => Ascii.eqb c c' || str_mem c r
  end.

Definition hex_digit (n : nat) : ascii :=
  nth n (list_ascii_of_string "0123456789abcdef") "0"%char.

Definition hex2 (c : ascii) : string :=
  let n := nat_of_ascii c in
  String (hex_digit (n / 16)%nat) (String (hex_digit (n mod 16)%nat) EmptyString).

(** [str.isprintable] on the code points below 256: the control characters
    (categories Cc and Cf) and the no-break space are not printable. *)
Definition is_printable (c : ascii) : bool :=
  let n := nat_of_ascii c in
  negb ((n <? 32) || ((127 <=? n) && (n <=? 160)) || (n =? 173))%nat.

(** One character of the [repr] of a [str] delimited by [quote]. *)
Definition repr_char (quote c : ascii) : string :=
  let n := nat_of_ascii c in
  if Ascii.eqb c quote || Ascii.eqb c backslash then String backslash (String c EmptyString)
  else if (n =? 9)%nat then "\t"
  else if (n =? 10)%nat then "\n"
  else if (n =? 13)%nat then "\r"
  else if is_printable c then String c EmptyString
  else "\x" ++ hex2 c.

Fixpoint repr_chars (quote : ascii) (s : string) : string :=
  match s with
  | EmptyString => EmptyString
  | String c r => repr_char quote c ++ repr_chars quote r
  end.

(** [repr(s)] for a [str]: single quotes, unless the text has a single
    quote and no double quote. *)
Definition repr_str (s : string) : string :=
  let quote := if str_mem squote s && negb (str_mem dquote s) then dquote else squote in
  String quote (repr_chars quote s ++ String quote EmptyString).

(** [str(n)] for an [int]. *)
Definition str_int (z : Z) : string := NilZero.string_of_int (Z.to_int z).

(** [repr(v)]. *)
Fixpoint py_repr (v : json) : string :=
  match v with
  | JNull => "None"
  | JBool true => "True"
  | JBool false => "False"
  | JInt z => str_int z
  | JStr s => repr_str s
  | JList l => "[" ++ join ", " (map py_repr l) ++ "]"
  | JDict d =>
      "{" ++ join ", " (map (fun kv => match kv with
                                        | (k, x) => repr_str k ++ ": " ++ py_repr x
                                        end) d) ++ "}"
  end.

(** [str(v)], which is what a replacement field [{v}] of an f-string
    inserts: the text itself for a [str], the [repr] otherwise. *)
Definition py_str (v : json) : string :=
  match v with
  | JStr s => s
  | _ => py_repr v
  end.

(* ================================================================== *)
(** ** The [requests] library, as the adapters use it *)

Inductive http_method : Type := GET | POST.

(** One call of [session.get(url, timeout=t)] or
    [session.post(url, json=body, timeout=t)]. *)
Record request : Type := mkRequest {
  rq_session : nat;            (* identity of the [Session] object called *)
  rq_method : http_method;
  rq_url : string;
  rq_json : option json;       (* the [json=] keyword; absent for [get] *)
  rq_timeout : Z
}.

(** A [requests.Response].  [decoded] is what [resp.json()] gives for the
    body: [None] when the body is not a JSON text. *)
Record response : Type := mkResponse {
  status_code : Z;
  text : string;
  decoded : option json
}.

(** The [requests.exceptions] raised when no response is obtained. *)
Inductive net_failure : Type :=
| ConnectionError    (* connection refused, DNS failure *)
| ConnectTimeout
| ReadTimeout.

Inductive reply : Type :=
| Replied (r : response)
| Failed (f : net_failure).

(** The exceptions that reach the caller of an adapter. *)
Inductive exn : Type :=
| AttributeError                     (* [.get] or [.items] on a value that is no dict *)
| RequestException (f : net_failure) (* raised by [session.get] / [session.post] *)
| HTTPError (r : response)           (* raised by [raise_for_status], holds the response *)
| JSONDecodeError (doc : string).    (* raised by [resp.json()], holds the body *)

Inductive res (A : Type) : Type :=
| Ok (a : A)
| Raise (e : exn).
Arguments Ok {A} a.
Arguments Raise {A} e.

(** The remote side: what comes back for a request, given the requests
    made before it. *)
Definition server : Type := list request -> request -> reply.

(** The state the adapters act on: the [Session] objects created so far
    ([next_session] is the identity the next one gets) and the calls made
    on them, oldest first. *)
Record world : Type := mkWorld {
  next_session : nat;
  sent : list request
}.

Definition initial_world : world := mkWorld 0 [].

(** Computations that may call the server, change the world and raise. *)
Definition M (A : Type) : Type := server -> world -> res A * world.

Class Monad (m : Type -> Type) : Type := {
  ret : forall {A}, A -> m A;
  bind : forall {A B}, m A -> (A -> m B) -> m B
}.

Notation "x <- c ;; k" := (bind c (fun x => k))
  (at level 61, c at next level, right associativity).

#[export] Instance res_monad : Monad res := {
  ret := fun A a => Ok a;
  bind := fun A B c k => match c with Ok a => k a | Raise e => Raise e end
}.

#[export] Instance M_monad : Monad M := {
  ret := fun A a _ w => (Ok a, w);
  bind := fun A B c k srv w =>
            match c srv w with
            | (Ok a, w') => k a srv w'
            | (Raise e, w') => (Raise e, w')
            end
}.

(** A computation without effects, inside [M]. *)
Definition lift {A : Type} (r : res A) : M A := fun _ w => (r, w).

(** [mapM f l]: the results of [f] on the items of [l] in order, or the
    first exception. *)
Fixpoint mapM {A B : Type} (f : A -> res B) (l : list A) : res (list B) :=
  match l with
  | [] => Ok []
  | a :: l' => b <- f a ;; bs <- mapM f l' ;; Ok (b :: bs)
  end.

(** [requests.Session()]: a new session object. *)
Definition Session : M nat :=
  fun _ w => (Ok (next_session w), mkWorld (S (next_session w)) (sent w)).

(** The call is recorded, then the server answers or the transport fails. *)
Definition send (rq : request) : M response :=
  fun srv w =>
    let w' := mkWorld (next_session w) (sent w ++ [rq]) in
    match srv (sent w) rq with
    | Replied r => (Ok r, w')
    | Failed f => (Raise (RequestException f), w')
    end.

(** [session.get(url, timeout=t)]. *)
Definition session_get (session : nat) (url : string) (timeout : Z) : M response :=
  send (mkRequest session GET url None timeout).

(** [session.post(url, json=body, timeout=t)]. *)
Definition session_post (session : nat) (url : string) (body : json) (timeout : Z)
  : M response :=
  send (mkRequest session POST url (Some body) timeout).

(** [resp.raise_for_status()]: an [HTTPError] for a 4xx or 5xx status. *)
Definition raise_for_status (resp : response) : res unit :=
  if ((400 <=? status_code resp) && (status_code resp <? 600))%Z
  then Raise (HTTPError resp)
  else Ok tt.

(** [resp.json()]. *)
Definition resp_json (resp : response) : res json :=
  match decoded resp with
  | Some v => Ok v
  | None => Raise (JSONDecodeError (text resp))
  end.

(** [v.get(k, default)]: an [AttributeError] unless [v] is a dict. *)
Definition py_get (v : json) (k : string) (default : json) : res json :=
  match v with
  | JDict d => Ok (dict_get d k default)
  | _ => Raise AttributeError
  end.

(** [v.items()]. *)
Definition py_items (v : json) : res pydict :=
  match v with
  | JDict d => Ok d
  | _ => Raise AttributeError
  end.

(* ================================================================== *)
(** ** tools/crewai.py *)

Module Crewai.

Definition DEFAULT_BASE_URL : string := "http://localhost:3000".

(** [_session = requests.Session()], run once when the module is loaded.
    Everything below refers to that one module-level object. *)
Definition load_module : M nat := Session.

(** [data or {}]: an absent or empty [data] gives the empty dict. *)
Definition or_empty_dict (data : option pydict) : pydict :=
  match data with
  | Some (item :: d) => item :: d
  | _ => []
  end.

(** One item of the generator expression handed to [join] in [_call]. *)
Definition element_line (item : string * json) : res string :=
  match item with
  | (ref, el) =>
      semantic <- py_get el "semantic" (JStr "?") ;;
      text <- py_get el "text" (JStr "(no text)") ;;
      Ok ("[" ++ ref ++ "] " ++ py_str semantic ++ ": " ++ py_str text)
  end.

(** The second half of [_call], from [view = result.get(...)] to the
    [return]: the rendering of the decoded body. *)
Definition _call_format (result : json) : res string :=
  view <- py_get result "view" (JStr EmptyString) ;;
  elements <- py_get result "elements" (JDict []) ;;
  meta <- py_get result "meta" (JDict []) ;;
  items <- py_items elements ;;
  lines <- mapM element_line items ;;
  let refs := join LF lines in
  url <- py_get meta "url" (JStr "unknown") ;;
  title <- py_get meta "title" (JStr "unknown") ;;
  Ok ("URL: " ++ py_str url ++ LF ++ "Title: " ++ py_str title ++ LF ++ LF
      ++ py_str view ++ LF ++ LF ++ "Interactive elements:" ++ LF ++ refs).

Section Module_globals.

Variable _session : nat.

(** [_call(endpoint, data=None, method="POST", base_url=DEFAULT_BASE_URL)]. *)
Definition _call (endpoint : string) (data : option pydict) (method : option string)
  (base_url : option string) : M string :=
  let method := default method "POST" in
  let base_url := default base_url DEFAULT_BASE_URL in
  let url := rstrip_slash base_url ++ endpoint in
  resp <- (if String.eqb method "GET"
           then session_get _session url 30
           else session_post _session url (JDict (or_empty_dict data)) 30) ;;
  _ <- lift (raise_for_status resp) ;;
  result <- lift (resp_json resp) ;;
  lift (_call_format result).

(** A tool object.  [name] and [description] are the only fields the six
    classes declare besides [args_schema]; none holds a base URL. *)
Record BaseTool : Type := mkTool {
  name : string;
  description : string
}.

Definition TextWebBrowseTool : BaseTool :=
  mkTool "textweb_navigate"
    "Navigate to a URL and see it as a text grid. Interactive elements are marked with [ref] numbers for clicking/typing. ~500x smaller than screenshots, no vision model needed.".
Definition TextWebClickTool : BaseTool :=
  mkTool "textweb_click"
    "Click an interactive element by its [ref] number from the text grid.".
Definition TextWebTypeTool : BaseTool :=
  mkTool "textweb_type" "Type text into an input field by its [ref] number.".
Definition TextWebSelectTool : BaseTool :=
  mkTool "textweb_select" "Select a dropdown option by [ref] number.".
Definition TextWebScrollTool : BaseTool :=
  mkTool "textweb_scroll" "Scroll the page up, down, or to top.".
Definition TextWebSnapshotTool : BaseTool :=
  mkTool "textweb_snapshot" "Re-render the current page as text without navigating.".

(** The [_run] methods. *)
Definition TextWebBrowseTool_run (self : BaseTool) (url : string) : M string :=
  _call "/navigate" (Some [("url", JStr url)]) None None.

Definition TextWebClickTool_run (self : BaseTool) (ref : Z) : M string :=
  _call "/click" (Some [("ref", JInt ref)]) None None.

Definition TextWebTypeTool_run (self : BaseTool) (ref : Z) (text : string) : M string :=
  _call "/type" (Some [("ref", JInt ref); ("text", JStr text)]) None None.

Definition TextWebSelectTool_run (self : BaseTool) (ref : Z) (value : string) : M string :=
  _call "/select" (Some [("ref", JInt ref); ("value", JStr value)]) None None.

Definition TextWebScrollTool_run (self : BaseTool) (direction : string) : M string :=
  _call "/scroll" (Some [("direction", JStr direction)]) None None.

Definition TextWebSnapshotTool_run (self : BaseTool) : M string :=
  _call "/snapshot" None (Some "GET") None.

(** The arguments each tool's [args_schema] admits ([NavigateSchema],
    [ClickSchema], [TypeSchema], [SelectSchema], [ScrollSchema]; the
    snapshot tool declares none). *)
Inductive tool_call : Type :=
| Navigate (url : string)
| Click (ref : Z)
| TypeText (ref : Z) (text : string)
| Select (ref : Z) (value : string)
| Scroll (direction : string)
| Snapshot.

(** The framework's call of a tool: [_run] on the validated arguments. *)
Definition run (self : BaseTool) (c : tool_call) : M string :=
  match c with
  | Navigate url => TextWebBrowseTool_run self url
  | Click ref => TextWebClickTool_run self ref
  | TypeText ref text => TextWebTypeTool_run self ref text
  | Select ref value => TextWebSelectTool_run self ref value
  | Scroll direction => TextWebScrollTool_run self direction
  | Snapshot => TextWebSnapshotTool_run self
  end.

End Module_globals.

End Crewai.

(* ================================================================== *)
(** ** tools/langchain.py *)

Module Langchain.

Definition DEFAULT_BASE_URL : string := "http://localhost:3000".

(** An object of class [TextWebClient]. *)
Record TextWebClient : Type := mkClient {
  base_url : string;
  session : nat
}.

(** [TextWebClient(base_url)]: [__init__(self, base_url=DEFAULT_BASE_URL)]. *)
Definition __init__ (base_url : option string) : M TextWebClient :=
  let base_url := default base_url DEFAULT_BASE_URL in
  let self_base_url := rstrip_slash base_url in
  self_session <- Session ;;
  ret (mkClient self_base_url self_session).

Definition _post (self : TextWebClient) (endpoint : string) (data : pydict) : M json :=
  resp <- session_post (session self) (base_url self ++ endpoint) (JDict data) 30 ;;
  _ <- lift (raise_for_status resp) ;;
  lift (resp_json resp).

Definition _get (self : TextWebClient) (endpoint : string) : M json :=
  resp <- session_get (session self) (base_url self ++ endpoint) 30 ;;
  _ <- lift (raise_for_status resp) ;;
  lift (resp_json resp).

(** One item of the generator expression handed to [join] in [_format]. *)
Definition element_line (item : string * json) : res string :=
  match item with
  | (ref, el) =>
      semantic <- py_get el "semantic" (JStr "?") ;;
      text <- py_get el "text" (JStr "(no text)") ;;
      Ok ("[" ++ ref ++ "] " ++ py_str semantic ++ ": " ++ py_str text)
  end.

Definition _format (result : json) : res string :=
  view <- py_get result "view" (JStr EmptyString) ;;
  elements <- py_get result "elements" (JDict []) ;;
  meta <- py_get result "meta" (JDict []) ;;
  items <- py_items elements ;;
  lines <- mapM element_line items ;;
  let refs := join LF lines in
  url <- py_get meta "url" (JStr "unknown") ;;
  title <- py_get meta "title" (JStr "unknown") ;;
  totalRefs <- py_get meta "totalRefs" (JInt 0) ;;
  Ok ("URL: " ++ py_str url ++ LF ++ "Title: " ++ py_str title ++ LF
      ++ "Refs: " ++ py_str totalRefs ++ LF ++ LF
      ++ py_str view ++ LF ++ LF ++ "Interactive elements:" ++ LF ++ refs).

Definition navigate (self : TextWebClient) (url : string) : M string :=
  result <- _post self "/navigate" [("url", JStr url)] ;;
  lift (_format result).

Definition click (self : TextWebClient) (ref : Z) : M string :=
  result <- _post self "/click" [("ref", JInt ref)] ;;
  lift (_format result).

Definition type_text (self : TextWebClient) (ref : Z) (text : string) : M string :=
  result <- _post self "/type" [("ref", JInt ref); ("text", JStr text)] ;;
  lift (_format result).

Definition select (self : TextWebClient) (ref : Z) (value : string) : M string :=
  result <- _post self "/select" [("ref", JInt ref); ("value", JStr value)] ;;
  lift (_format result).

(** [scroll(self, direction="down", amount=1)]. *)
Definition scroll (self : TextWebClient) (direction : option string) (amount : option Z)
  : M string :=
  let direction := default direction "down" in
  let amount := default amount 1%Z in
  result <- _post self "/scroll" [("direction", JStr direction); ("amount", JInt amount)] ;;
  lift (_format result).

Definition snapshot (self : TextWebClient) : M string :=
  result <- _get self "/snapshot" ;;
  lift (_format result).

(** The arguments each tool's [args_schema] admits ([NavigateInput],
    [ClickInput], [TypeInput], [SelectInput], [ScrollInput], whose [amount]
    may be omitted; the snapshot tool takes one optional string). *)
Inductive tool_call : Type :=
| Navigate (url : string)
| Click (ref : Z)
| TypeText (ref : Z) (text : string)
| Select (ref : Z) (value : string)
| Scroll (direction : string) (amount : option Z)
| Snapshot (arg : option string).

(** The six functions [get_textweb_tools] wraps as tools, in the order of
    the returned list; each is a lambda closed over the one [client]:
    [lambda url: client.navigate(url)], ...,
    [lambda direction, amount=1: client.scroll(direction, amount)],
    [lambda _=...: client.snapshot()]. *)
Definition tool_func (client : TextWebClient) (c : tool_call) : M string :=
  match c with
  | Navigate url => navigate client url
  | Click ref => click client ref
  | TypeText ref text => type_text client ref text
  | Select ref value => select client ref value
  | Scroll direction amount =>
      let amount := default amount 1%Z in
      scroll client (Some direction) (Some amount)
  | Snapshot _ => snapshot client
  end.

(** [get_textweb_tools(base_url=DEFAULT_BASE_URL)]: one client, shared by
    the six tools. *)
Definition get_textweb_tools (base_url : option string) : M (tool_call -> M string) :=
  let base_url := default base_url DEFAULT_BASE_URL in
  client <- __init__ (Some base_url) ;;
  ret (tool_func client).

End Langchain.

(* ================================================================== *)
(** ** Vocabulary of the statements *)

(** A server that gives the same reply to every request. *)
Definition mock (rp : reply) : server := fun _ _ => rp.

(** A JSON text for the value [v]: the body a mocked server sends. *)
Definition json_char (c : ascii) : string :=
  if Ascii.eqb c dquote || Ascii.eqb c backslash then String backslash (String c EmptyString)
  else if (nat_of_ascii c <? 32)%nat then "\u00" ++ hex2 c
  else String c EmptyString.

Fixpoint json_chars (s : string) : string :=
  match s with
  | EmptyString => EmptyString
  | String c r => json_char c ++ json_chars r
  end.

Definition json_string (s : string) : string :=
  String dquote (json_chars s ++ String dquote EmptyString).

Fixpoint json_text (v : json) : string :=
  match v with
  | JNull => "null"
  | JBool true => "true"
  | JBool false => "false"
  | JInt z => str_int z
  | JStr s => json_string s
  | JList l => "[" ++ join "," (map json_text l) ++ "]"
  | JDict d =>
      "{" ++ join "," (map (fun kv => match kv with
                                       | (k, x) => json_string k ++ ":" ++ json_text x
                                       end) d) ++ "}"
  end.

(** The reply with the given status whose body is the JSON text of [v]. *)
Definition json_reply (status : Z) (v : json) : reply :=
  Replied (mkResponse status (json_text v) (Some v)).

(** The page of the formatting example:
    [{view: "HOME", elements: {"1": {semantic: "button", text: "Login"}},
      meta: {url: "http://x", title: "X", totalRefs: 1}}]. *)
Definition home_page : json :=
  JDict [("view", JStr "HOME");
         ("elements", JDict [("1", JDict [("semantic", JStr "button");
                                          ("text", JStr "Login")])]);
         ("meta", JDict [("url", JStr "http://x"); ("title", JStr "X");
                         ("totalRefs", JInt 1)])].

(** The text expected for [home_page]. *)
Definition home_text : string :=
  "URL: http://x" ++ LF ++ "Title: X" ++ LF ++ LF ++ "HOME" ++ LF ++ LF
  ++ "Interactive elements:" ++ LF ++ "[1] button: Login".

(** The same text with a [Refs] line after the title. *)
Definition home_text_refs : string :=
  "URL: http://x" ++ LF ++ "Title: X" ++ LF ++ "Refs: 1" ++ LF ++ LF ++ "HOME" ++ LF ++ LF
  ++ "Interactive elements:" ++ LF ++ "[1] button: Login".

(** An elements mapping all of whose values are dicts. *)
Definition elements_of (items : list (string * pydict)) : pydict :=
  map (fun item => (fst item, JDict (snd item))) items.

(** The line [[ref] semantic: text] of one element, with the default of a
    missing field. *)
Definition rendered_line (item : string * pydict) : string :=
  "[" ++ fst item ++ "] "
  ++ py_str (dict_get (snd item) "semantic" (JStr "?")) ++ ": "
  ++ py_str (dict_get (snd item) "text" (JStr "(no text)")).

(** The [URL] and [Title] lines. *)
Definition header (meta : pydict) : string :=
  "URL: " ++ py_str (dict_get meta "url" (JStr "unknown")) ++ LF
  ++ "Title: " ++ py_str (dict_get meta "title" (JStr "unknown")) ++ LF.

(** The [Refs] line of the LangChain adapter. *)
Definition refs_line (meta : pydict) : string :=
  "Refs: " ++ py_str (dict_get meta "totalRefs" (JInt 0)) ++ LF.

(** What follows the header: the view and the element section. *)
Definition page_body (view : json) (lines : list string) : string :=
  LF ++ py_str view ++ LF ++ LF ++ "Interactive elements:" ++ LF ++ join LF lines.

(** A decoded body of the shape of a page snapshot: a dict whose
    [elements], when present, is a dict of dicts and whose [meta], when
    present, is a dict. *)
Definition snapshot_shape (d : pydict) (items : list (string * pydict)) (meta : pydict)
  : Prop :=
  dict_get d "elements" (JDict []) = JDict (elements_of items)
  /\ dict_get d "meta" (JDict []) = JDict meta.

(** The six actions and the method and path of each. *)
Inductive action : Type :=
| ANavigate | AClick | AType | ASelect | AScroll | ASnapshot.

Definition action_method (a : action) : http_method :=
  match a with
  | ASnapshot => GET
  | _ => POST
  end.

Definition action_path (a : action) : string :=
  match a with
  | ANavigate => "/navigate"
  | AClick => "/click"
  | AType => "/type"
  | ASelect => "/select"
  | AScroll => "/scroll"
  | ASnapshot => "/snapshot"
  end.

Definition crewai_action (c : Crewai.tool_call) : action :=
  match c with
  | Crewai.Navigate _ => ANavigate
  | Crewai.Click _ => AClick
  | Crewai.TypeText _ _ => AType
  | Crewai.Select _ _ => ASelect
  | Crewai.Scroll _ => AScroll
  | Crewai.Snapshot => ASnapshot
  end.

Definition langchain_action (c : Langchain.tool_call) : action :=
  match c with
  | Langchain.Navigate _ => ANavigate
  | Langchain.Click _ => AClick
  | Langchain.TypeText _ _ => AType
  | Langchain.Select _ _ => ASelect
  | Langchain.Scroll _ _ => AScroll
  | Langchain.Snapshot _ => ASnapshot
  end.

(** What either adapter does with the reply to its one request. *)
Definition handle (format : json -> res string) (rp : reply) : res string :=
  match rp with
  | Failed f => Raise (RequestException f)
  | Replied r =>
      if ((400 <=? status_code r) && (status_code r <? 600))%Z
      then Raise (HTTPError r)
      else match decoded r with
           | None => Raise (JSONDecodeError (text r))
           | Some v => format v
           end
  end.

(** The world after one more call on a session. *)
Definition after_call (w : world) (rq : request) : world :=
  mkWorld (next_session w) (sent w ++ [rq]).

(** The request of a CrewAI tool call. *)
Definition crewai_request (_session : nat) (c : Crewai.tool_call) : request :=
  let url := "http://localhost:3000" ++ action_path (crewai_action c) in
  match c with
  | Crewai.Navigate u =>
      mkRequest _session POST url (Some (JDict [("url", JStr u)])) 30
  | Crewai.Click r =>
      mkRequest _session POST url (Some (JDict [("ref", JInt r)])) 30
  | Crewai.TypeText r t =>
      mkRequest _session POST url (Some (JDict [("ref", JInt r); ("text", JStr t)])) 30
  | Crewai.Select r v =>
      mkRequest _session POST url (Some (JDict [("ref", JInt r); ("value", JStr v)])) 30
  | Crewai.Scroll d =>
      mkRequest _session POST url (Some (JDict [("direction", JStr d)])) 30
  | Crewai.Snapshot =>
      mkRequest _session GET url None 30
  end.

(** The request of a LangChain tool call. *)
Definition langchain_request (client : Langchain.TextWebClient) (c : Langchain.tool_call)
  : request :=
  let url := Langchain.base_url client ++ action_path (langchain_action c) in
  let s := Langchain.session client in
  match c with
  | Langchain.Navigate u =>
      mkRequest s POST url (Some (JDict [("url", JStr u)])) 30
  | Langchain.Click r =>
      mkRequest s POST url (Some (JDict [("ref", JInt r)])) 30
  | Langchain.TypeText r t =>
      mkRequest s POST url (Some (JDict [("ref", JInt r); ("text", JStr t)])) 30
  | Langchain.Select r v =>
      mkRequest s POST url (Some (JDict [("ref", JInt r); ("value", JStr v)])) 30
  | Langchain.Scroll d a =>
      mkRequest s POST url
        (Some (JDict [("direction", JStr d); ("amount", JInt (default a 1%Z))])) 30
  | Langchain.Snapshot _ =>
      mkRequest s GET url None 30
  end.

(* ================================================================== *)
(** ** The script of tools/langchain.py and programs over the tools *)

(** The block under [if __name__ == "__main__"] alone, given [sys.argv]:
    [url = sys.argv[1] if len(sys.argv) > 1 else "https://example.com"],
    [client = TextWebClient()], [print(client.navigate(url))].  The text
    printed is the value returned. *)
Definition langchain_main (argv : list string) : M string :=
  let url := if (1 <? List.length argv)%nat
             then nth 1 argv EmptyString
             else "https://example.com" in
  client <- Langchain.__init__ None ;;
  Langchain.navigate client url.

(** How a run of tools/langchain.py as a script ends: the imports at the
    top of the file raised [ImportError], or the block ran. *)
Inductive script_end : Type :=
| ImportError                      (* raised by the [try]/[except] around the imports *)
| Ran (printed : res string).

(** The file run as a script.  The statements of the file run in order:
    first the imports ([import requests], then
    [from langchain.tools import ...] inside [try], with
    [except ImportError: raise ImportError(...)]), then the definitions,
    then the block.  Whether the imports succeed is decided outside the
    file, so it is an argument: it is [false] when the packages are not
    installed and also when the file is launched by its path, since the
    file itself is then found under the name [langchain].  When they fail
    nothing after them runs. *)
Definition langchain_script (imports_succeed : bool) (argv : list string)
  : server -> world -> script_end * world :=
  fun srv w =>
    if imports_succeed
    then (Ran (fst (langchain_main argv srv w)), snd (langchain_main argv srv w))
    else (ImportError, w).

(** A run of [n] slashes. *)
Fixpoint slashes (n : nat) : string :=
  match n with
  | O => EmptyString
  | S n' => String slash (slashes n')
  end.

(** The LangChain tool call that carries the arguments of a CrewAI tool
    call. *)
Definition to_langchain (c : Crewai.tool_call) : Langchain.tool_call :=
  match c with
  | Crewai.Navigate url => Langchain.Navigate url
  | Crewai.Click ref => Langchain.Click ref
  | Crewai.TypeText ref text => Langchain.TypeText ref text
  | Crewai.Select ref value => Langchain.Select ref value
  | Crewai.Scroll direction => Langchain.Scroll direction None
  | Crewai.Snapshot => Langchain.Snapshot None
  end.

(** One step of a program that uses the adapters: loading the CrewAI
    module, calling a CrewAI tool, calling the LangChain factory, making a
    client, calling a LangChain tool.  A tool is called on a session that
    exists. *)
Inductive adapter_step (srv : server) (w : world) : world -> Prop :=
| step_load_module :
    adapter_step srv w (snd (Crewai.load_module srv w))
| step_crewai_tool (s : nat) (self : Crewai.BaseTool) (c : Crewai.tool_call) :
    (s < next_session w)%nat ->
    adapter_step srv w (snd (Crewai.run s self c srv w))
| step_factory (base_url : option string) :
    adapter_step srv w (snd (Langchain.get_textweb_tools base_url srv w))
| step_client (base_url : option string) :
    adapter_step srv w (snd (Langchain.__init__ base_url srv w))
| step_langchain_tool (client : Langchain.TextWebClient) (c : Langchain.tool_call) :
    (Langchain.session client < next_session w)%nat ->
    adapter_step srv w (snd (Langchain.tool_func client c srv w)).

(** The worlds a program reaches from the initial one. *)
Inductive reachable (srv : server) : world -> Prop :=
| reach_initial : reachable srv initial_world
| reach_step (w w' : world) :
    reachable srv w -> adapter_step srv w w' -> reachable srv w'.

(** A request as the adapters make them: timeout 30, on a session that
    exists, with the method and the path of one of the six actions, and a
    body unless the action is the snapshot. *)
Definition known_request (w : world) (rq : request) : Prop :=
  rq_timeout rq = 30%Z
  /\ (rq_session rq < next_session w)%nat
  /\ exists a base,
       rq_url rq = base ++ action_path a
       /\ rq_method rq = action_method a
       /\ match a with
          | ASnapshot => rq_json rq = None
          | _ => exists body, rq_json rq = Some (JDict body)
          end.

(** [s.split("\n")]: the lines of a text. *)
Fixpoint split_lines (s : string) : list string :=
  match s with
  | EmptyString => [EmptyString]
  | String c r =>
      if Ascii.eqb c "010"%char
      then EmptyString :: split_lines r
      else match split_lines r with
           | [] => [String c EmptyString]
           | l :: ls => String c l :: ls
           end
  end.

(** A text without a newline. *)
Definition one_line (s : string) : bool := negb (str_mem "010"%char s).

(** An element whose ref, semantic and text are written without a
    newline. *)
Definition single_line_item (item : string * pydict) : Prop :=
  one_line (fst item) = true
  /\ one_line (py_str (dict_get (snd item) "semantic" (JStr "?"))) = true
  /\ one_line (py_str (dict_get (snd item) "text" (JStr "(no text)"))) = true.

(* ================================================================== *)
(** ** Lemmas on the transport *)

Lemma handle_eq (format : json -> res string) (r : response) :
  (_ <- raise_for_status r ;; v <- resp_json r ;; format v) = handle format (Replied r).
Proof.
  unfold raise_for_status, resp_json, handle.
  destruct ((400 <=? status_code r) && (status_code r <? 600))%Z; cbn.
  - reflexivity.
  - destruct (decoded r); reflexivity.
Qed.

(** The shape of [_call]: send, check the status, decode, format. *)
Lemma send_then (rq : request) (format : json -> res string) (srv : server) (w : world) :
  (resp <- send rq ;; _ <- lift (raise_for_status resp) ;;
   result <- lift (resp_json resp) ;; lift (format result)) srv w
  = (handle format (srv (sent w) rq), after_call w rq).
Proof.
  cbn [bind M_monad]. unfold send, lift, after_call.
  destruct (srv (sent w) rq) as [r|f]; [|reflexivity].
  rewrite <- handle_eq. cbn [bind res_monad].
  destruct (raise_for_status r); [|reflexivity].
  destruct (resp_json r); reflexivity.
Qed.

(** The shape of a [TextWebClient] method: [_post] or [_get], then
    [_format]. *)
Lemma send_decode_then (rq : request) (format : json -> res string) (srv : server)
  (w : world) :
  (result <- (resp <- send rq ;; _ <- lift (raise_for_status resp) ;;
              lift (resp_json resp)) ;;
   lift (format result)) srv w
  = (handle format (srv (sent w) rq), after_call w rq).
Proof.
  cbn [bind M_monad]. unfold send, lift, after_call.
  destruct (srv (sent w) rq) as [r|f]; [|reflexivity].
  rewrite <- handle_eq. cbn [bind res_monad].
  destruct (raise_for_status r); [|reflexivity].
  destruct (resp_json r); reflexivity.
Qed.

(** A CrewAI tool call makes one request and handles its reply. *)
Lemma crewai_run_spec (s : nat) (self : Crewai.BaseTool) (c : Crewai.tool_call)
  (srv : server) (w : world) :
  Crewai.run s self c srv w
  = (handle Crewai._call_format (srv (sent w) (crewai_request s c)),
     after_call w (crewai_request s c)).
Proof.
  destruct c; apply send_then.
Qed.

(** So does a LangChain tool call. *)
Lemma langchain_tool_spec (client : Langchain.TextWebClient) (c : Langchain.tool_call)
  (srv : server) (w : world) :
  Langchain.tool_func client c srv w
  = (handle Langchain._format (srv (sent w) (langchain_request client c)),
     after_call w (langchain_request client c)).
Proof.
  destruct c; apply send_decode_then.
Qed.

(** The factory creates one session and makes no request. *)
Lemma get_textweb_tools_spec (base_url : option string) (srv : server) (w : world) :
  Langchain.get_textweb_tools base_url srv w
  = (Ok (Langchain.tool_func
           (Langchain.mkClient
              (rstrip_slash (default base_url "http://localhost:3000"))
              (next_session w))),
     mkWorld (S (next_session w)) (sent w)).
Proof.
  destruct base_url; reflexivity.
Qed.

(* ================================================================== *)
(** ** Lemmas on the rendering *)

Lemma append_assoc (a b c : string) : (a ++ b) ++ c = a ++ b ++ c.
Proof.
  induction a as [|x a IH]; cbn; [reflexivity | now rewrite IH].
Qed.

(** Two texts built from the same pieces, grouped differently. *)
Ltac same_text :=
  unfold header, refs_line, page_body; rewrite ?append_assoc; reflexivity.

(** The two adapters build an element line by the same expression. *)
Lemma element_line_same : Crewai.element_line = Langchain.element_line.
Proof. reflexivity. Qed.

Lemma element_line_dict (ref : string) (e : pydict) :
  Crewai.element_line (ref, JDict e) = Ok (rendered_line (ref, e)).
Proof. reflexivity. Qed.

Lemma mapM_element_line (items : list (string * pydict)) :
  mapM Crewai.element_line (elements_of items) = Ok (map rendered_line items).
Proof.
  induction items as [|[ref e] items IH].
  - reflexivity.
  - change (elements_of ((ref, e) :: items))
      with ((ref, JDict e) :: elements_of items).
    cbn [mapM bind res_monad]. rewrite element_line_dict, IH. reflexivity.
Qed.

(** The CrewAI rendering of a well-shaped body. *)
Lemma crewai_format_shaped (d : pydict) (items : list (string * pydict)) (meta : pydict) :
  snapshot_shape d items meta ->
  Crewai._call_format (JDict d)
  = Ok (header meta
        ++ page_body (dict_get d "view" (JStr EmptyString)) (map rendered_line items)).
Proof.
  intros [He Hm]. unfold Crewai._call_format.
  cbn [py_get bind res_monad]. rewrite He, Hm.
  cbn [py_items py_get bind res_monad]. rewrite mapM_element_line.
  cbn [bind res_monad]. same_text.
Qed.

(** The LangChain rendering of a well-shaped body. *)
Lemma langchain_format_shaped (d : pydict) (items : list (string * pydict))
  (meta : pydict) :
  snapshot_shape d items meta ->
  Langchain._format (JDict d)
  = Ok (header meta ++ refs_line meta
        ++ page_body (dict_get d "view" (JStr EmptyString)) (map rendered_line items)).
Proof.
  intros [He Hm]. unfold Langchain._format.
  cbn [py_get bind res_monad]. rewrite He, Hm.
  cbn [py_items py_get bind res_monad].
  rewrite <- element_line_same, mapM_element_line.
  cbn [bind res_monad]. same_text.
Qed.

Lemma dict_get_missing (d : pydict) (k : string) (default : json) :
  dict_has d k = false -> dict_get d k default = default.
Proof.
  induction d as [|[k' v] d IH]; cbn; [reflexivity|].
  destruct (String.eqb k' k); cbn; [discriminate | exact IH].
Qed.

Lemma dict_get_present (d : pydict) (k : string) (a b v : json) :
  dict_get d k a = v -> v <> a -> dict_get d k b = v.
Proof.
  induction d as [|[k' x] d IH]; cbn.
  - intros <- H. now contradiction H.
  - destruct (String.eqb k' k); [intros; assumption | exact IH].
Qed.

(** On any decoded body the two renderings raise the same exception, or
    both succeed and differ by the [Refs] line alone. *)
Lemma format_relation (result : json) :
  match Crewai._call_format result, Langchain._format result with
  | Raise e1, Raise e2 => e1 = e2
  | Ok a, Ok b =>
      exists meta tail,
        py_get result "meta" (JDict []) = Ok (JDict meta)
        /\ a = header meta ++ tail
        /\ b = header meta ++ refs_line meta ++ tail
  | _, _ => False
  end.
Proof.
  destruct result as [| | | | |d]; try reflexivity.
  unfold Crewai._call_format, Langchain._format.
  cbn [py_get bind res_monad].
  destruct (dict_get d "elements" (JDict [])) as [| | | | |items];
    cbn [py_items bind res_monad]; try reflexivity.
  rewrite <- element_line_same.
  destruct (mapM Crewai.element_line items) as [lines|e];
    cbn [bind res_monad]; [|reflexivity].
  destruct (dict_get d "meta" (JDict [])) as [| | | | |meta];
    cbn [py_get bind res_monad]; try reflexivity.
  exists meta, (page_body (dict_get d "view" (JStr EmptyString)) lines).
  unfold header, refs_line, page_body. rewrite !append_assoc.
  repeat split.
Qed.

(* ================================================================== *)
(** ** The rendering of a page *)

(** C2, as stated, fails for the LangChain adapter: on the example page
    [_format] does not return the expected text, because it adds a [Refs]
    line. *)
Lemma C2_langchain_text_differs : Langchain._format home_page <> Ok home_text.
Proof.
  vm_compute. discriminate.
Qed.

(** C2 (amended): on the example page the CrewAI rendering is exactly
    [URL: http://x\nTitle: X\n\nHOME\n\nInteractive elements:\n[1] button: Login],
    and the LangChain rendering is that text with the line [Refs: 1] after
    the title line. *)
Theorem C2_home_page_text :
  Crewai._call_format home_page = Ok home_text
  /\ Langchain._format home_page = Ok home_text_refs.
Proof.
  split; reflexivity.
Qed.

(** C3, as stated, fails on an element whose text is the empty string: the
    line ends after the colon and space, [(no text)] is not written. *)
Lemma C3_empty_text_not_defaulted :
  let page := JDict [("elements",
                      JDict [("7", JDict [("semantic", JStr "link");
                                          ("text", JStr EmptyString)])])] in
  Crewai._call_format page
    = Ok (header [] ++ page_body (JStr EmptyString) ["[7] link: "])
  /\ Crewai._call_format page
    <> Ok (header [] ++ page_body (JStr EmptyString) ["[7] link: (no text)"])
  /\ Langchain._format page
    <> Ok (header [] ++ refs_line []
           ++ page_body (JStr EmptyString) ["[7] link: (no text)"]).
Proof.
  vm_compute. repeat split; discriminate.
Qed.

(** C3 (amended): in both adapters a missing [meta.url] or [meta.title] is
    written [unknown], an element without [semantic] is written with [?],
    an element without [text] is written with [(no text)], and an element
    whose [text] is the empty string is written with the empty text. *)
Theorem C3_missing_field_defaults (d : pydict) (items : list (string * pydict))
  (meta : pydict) :
  snapshot_shape d items meta ->
  exists url title lines,
    Crewai._call_format (JDict d)
      = Ok ("URL: " ++ url ++ LF ++ "Title: " ++ title ++ LF
            ++ page_body (dict_get d "view" (JStr EmptyString)) lines)
    /\ Langchain._format (JDict d)
      = Ok ("URL: " ++ url ++ LF ++ "Title: " ++ title ++ LF ++ refs_line meta
            ++ page_body (dict_get d "view" (JStr EmptyString)) lines)
    /\ (dict_has meta "url" = false -> url = "unknown")
    /\ (dict_has meta "title" = false -> title = "unknown")
    /\ Forall2
         (fun item line =>
            exists semantic text,
              line = "[" ++ fst item ++ "] " ++ semantic ++ ": " ++ text
              /\ (dict_has (snd item) "semantic" = false -> semantic = "?")
              /\ (dict_has (snd item) "text" = false -> text = "(no text)")
              /\ (dict_get (snd item) "text" JNull = JStr EmptyString
                  -> text = EmptyString))
         items lines.
Proof.
  intros Hs.
  exists (py_str (dict_get meta "url" (JStr "unknown"))),
         (py_str (dict_get meta "title" (JStr "unknown"))),
         (map rendered_line items).
  split; [|split; [|split; [|split]]].
  - rewrite (crewai_format_shaped d items meta Hs).
    same_text.
  - rewrite (langchain_format_shaped d items meta Hs).
    same_text.
  - intros H. now rewrite (dict_get_missing _ _ _ H).
  - intros H. now rewrite (dict_get_missing _ _ _ H).
  - clear Hs. induction items as [|[ref e] items IH]; constructor; [|exact IH].
    exists (py_str (dict_get e "semantic" (JStr "?"))),
           (py_str (dict_get e "text" (JStr "(no text)"))).
    cbn [fst snd]. split; [reflexivity|]. split; [|split].
    + intros H. now rewrite (dict_get_missing _ _ _ H).
    + intros H. now rewrite (dict_get_missing _ _ _ H).
    + intros H.
      rewrite (dict_get_present e "text" JNull (JStr "(no text)") _ H); [reflexivity|].
      discriminate.
Qed.

(** A page with no [meta], one element without any field and one with an
    empty text. *)
Lemma C3_missing_field_defaults_witness :
  exists url title lines,
    Crewai._call_format
      (JDict [("view", JStr "V");
              ("elements", JDict [("4", JDict []);
                                  ("9", JDict [("text", JStr EmptyString)])])])
      = Ok ("URL: " ++ url ++ LF ++ "Title: " ++ title ++ LF
            ++ page_body (JStr "V") lines)
    /\ url = "unknown" /\ title = "unknown"
    /\ lines = ["[4] ?: (no text)"; "[9] ?: "].
Proof.
  destruct (C3_missing_field_defaults
              [("view", JStr "V");
               ("elements", JDict [("4", JDict []);
                                   ("9", JDict [("text", JStr EmptyString)])])]
              [("4", []); ("9", [("text", JStr EmptyString)])]
              [])
    as (url & title & lines & Hc & _ & Hu & Ht & Hl).
  - split; reflexivity.
  - exists url, title, lines. split; [exact Hc|].
    split; [apply Hu; reflexivity|]. split; [apply Ht; reflexivity|].
    inversion Hl as [|? l1 ? ls1 (s1 & t1 & E1 & S1 & T1 & _) Hl' Ea Eb]; subst.
    inversion Hl' as [|? l2 ? ls2 (s2 & t2 & E2 & S2 & _ & T2) Hl'' Ec Ed]; subst.
    inversion Hl''; subst.
    rewrite (S1 eq_refl), (T1 eq_refl), (S2 eq_refl), (T2 eq_refl).
    reflexivity.
Defined.

Lemma one_line_app (a b : string) : one_line (a ++ b) = one_line a && one_line b.
Proof.
  unfold one_line. induction a as [|c a IH]; cbn [append str_mem]; [reflexivity|].
  destruct (Ascii.eqb "010"%char c); cbn [orb negb andb]; [reflexivity | exact IH].
Qed.

Lemma split_lines_one (a : string) : one_line a = true -> split_lines a = [a].
Proof.
  unfold one_line. induction a as [|c a IH]; cbn [split_lines str_mem]; [reflexivity|].
  rewrite (Ascii.eqb_sym c).
  destruct (Ascii.eqb "010"%char c); cbn [orb negb]; [discriminate|].
  intros H. rewrite (IH H). reflexivity.
Qed.

Lemma split_lines_app (a rest : string) :
  one_line a = true -> split_lines (a ++ LF ++ rest) = a :: split_lines rest.
Proof.
  unfold one_line. induction a as [|c a IH]; intros H.
  - reflexivity.
  - cbn [str_mem] in H. change (String c a ++ LF ++ rest) with (String c (a ++ LF ++ rest)).
    cbn [split_lines]. rewrite (Ascii.eqb_sym c).
    destruct (Ascii.eqb "010"%char c); cbn [orb negb] in H; [discriminate|].
    rewrite (IH H). reflexivity.
Qed.

(** Texts without a newline, joined by newlines, are the lines of the
    result. *)
Lemma split_lines_join (lines : list string) :
  lines <> [] -> Forall (fun l => one_line l = true) lines ->
  split_lines (join LF lines) = lines.
Proof.
  induction lines as [|a [|b lines] IH]; intros Hne Hall.
  - contradiction.
  - inversion Hall; subst. apply split_lines_one. assumption.
  - inversion Hall as [|? ? Ha Hall']; subst.
    change (join LF (a :: b :: lines)) with (a ++ LF ++ join LF (b :: lines)).
    rewrite (split_lines_app _ _ Ha), IH; [reflexivity | discriminate | exact Hall'].
Qed.

Lemma rendered_line_one_line (item : string * pydict) :
  single_line_item item -> one_line (rendered_line item) = true.
Proof.
  intros (Hr & Hs & Ht). unfold rendered_line.
  rewrite !one_line_app, Hr, Hs, Ht. reflexivity.
Qed.

(** C8, as stated, fails when a text holds a newline: the page below has
    two entries and its element section has three lines, the second of
    which is not the line of the second entry. *)
Lemma C8_newline_in_text_adds_a_line :
  let page :=
    JDict [("elements",
            JDict [("1", JDict [("semantic", JStr "link");
                                ("text", JStr ("A" ++ LF ++ "[9] button: Fake"))]);
                   ("2", JDict [("semantic", JStr "button"); ("text", JStr "Go")])])] in
  exists section,
    Crewai._call_format page
      = Ok ("URL: unknown" ++ LF ++ "Title: unknown" ++ LF ++ LF ++ LF ++ LF
            ++ "Interactive elements:" ++ LF ++ section)
    /\ Langchain._format page
      = Ok ("URL: unknown" ++ LF ++ "Title: unknown" ++ LF ++ "Refs: 0" ++ LF
            ++ LF ++ LF ++ LF ++ "Interactive elements:" ++ LF ++ section)
    /\ split_lines section = ["[1] link: A"; "[9] button: Fake"; "[2] button: Go"]
    /\ nth_error (split_lines section) 1 <> Some "[2] button: Go".
Proof.
  exists ("[1] link: A" ++ LF ++ "[9] button: Fake" ++ LF ++ "[2] button: Go").
  split; [reflexivity|]. split; [reflexivity|]. split; [reflexivity|].
  vm_compute. discriminate.
Qed.

(** C8 (amended): in both adapters the element section is the texts
    [[ref] semantic: text] of the entries of the [elements] mapping joined
    by newlines, text [k] being that of entry [k] of the mapping: as many
    texts as entries, in the order of the mapping, whatever the refs are.
    When no ref, semantic or text is written with a newline and the mapping
    is not empty, these texts are exactly the lines of the element section,
    so line [k] is then the line of entry [k]. *)
Theorem C8_lines_follow_mapping_order (d : pydict) (items : list (string * pydict))
  (meta : pydict) :
  snapshot_shape d items meta ->
  exists lines,
    Crewai._call_format (JDict d)
      = Ok ((header meta ++ LF ++ py_str (dict_get d "view" (JStr EmptyString))
             ++ LF ++ LF)
            ++ "Interactive elements:" ++ LF ++ join LF lines)
    /\ Langchain._format (JDict d)
      = Ok ((header meta ++ refs_line meta ++ LF
             ++ py_str (dict_get d "view" (JStr EmptyString)) ++ LF ++ LF)
            ++ "Interactive elements:" ++ LF ++ join LF lines)
    /\ length lines = length items
    /\ (forall k ref el,
          nth_error items k = Some (ref, el) ->
          nth_error lines k
          = Some ("[" ++ ref ++ "] "
                  ++ py_str (dict_get el "semantic" (JStr "?")) ++ ": "
                  ++ py_str (dict_get el "text" (JStr "(no text)"))))
    /\ (items <> [] -> Forall single_line_item items ->
        split_lines (join LF lines) = lines).
Proof.
  intros Hs. exists (map rendered_line items).
  split; [|split; [|split; [|split]]].
  - rewrite (crewai_format_shaped d items meta Hs). same_text.
  - rewrite (langchain_format_shaped d items meta Hs). same_text.
  - apply length_map.
  - intros k ref el Hk. rewrite nth_error_map, Hk. reflexivity.
  - intros Hne Hall. apply split_lines_join.
    + destruct items; [contradiction | discriminate].
    + apply Forall_map. revert Hall. apply Forall_impl.
      exact rendered_line_one_line.
Qed.

(** A mapping whose refs are not in increasing order and whose texts hold
    no newline: the lines of the element section keep the order of the
    mapping. *)
Lemma C8_lines_follow_mapping_order_witness :
  exists lines,
    Crewai._call_format
      (JDict [("elements",
               JDict [("10", JDict [("semantic", JStr "link"); ("text", JStr "Next")]);
                      ("2", JDict [("semantic", JStr "button"); ("text", JStr "Go")])])])
      = Ok ((header [] ++ LF ++ LF ++ LF)
            ++ "Interactive elements:" ++ LF ++ join LF lines)
    /\ nth_error lines 0 = Some "[10] link: Next"
    /\ nth_error lines 1 = Some "[2] button: Go"
    /\ split_lines (join LF lines) = lines.
Proof.
  destruct (C8_lines_follow_mapping_order
              [("elements",
                JDict [("10", JDict [("semantic", JStr "link"); ("text", JStr "Next")]);
                       ("2", JDict [("semantic", JStr "button"); ("text", JStr "Go")])])]
              [("10", [("semantic", JStr "link"); ("text", JStr "Next")]);
               ("2", [("semantic", JStr "button"); ("text", JStr "Go")])]
              [])
    as (lines & Hc & _ & _ & Hk & Hl).
  - split; reflexivity.
  - exists lines. split; [exact Hc|]. split; [|split].
    + exact (Hk 0%nat _ _ eq_refl).
    + exact (Hk 1%nat _ _ eq_refl).
    + apply Hl; [discriminate|].
      repeat constructor.
Defined.

(** C10: when the [elements] mapping is empty (or absent), both adapters
    return a text that ends with the line [Interactive elements:] and its
    newline, with nothing after it. *)
Theorem C10_empty_elements (d : pydict) (meta : pydict) :
  dict_get d "elements" (JDict []) = JDict [] ->
  dict_get d "meta" (JDict []) = JDict meta ->
  Crewai._call_format (JDict d)
    = Ok ((header meta ++ LF ++ py_str (dict_get d "view" (JStr EmptyString))
           ++ LF ++ LF)
          ++ "Interactive elements:" ++ LF)
  /\ Langchain._format (JDict d)
    = Ok ((header meta ++ refs_line meta ++ LF
           ++ py_str (dict_get d "view" (JStr EmptyString)) ++ LF ++ LF)
          ++ "Interactive elements:" ++ LF).
Proof.
  intros He Hm.
  assert (Hs : snapshot_shape d [] meta) by (split; assumption).
  split.
  - rewrite (crewai_format_shaped d [] meta Hs).
    same_text.
  - rewrite (langchain_format_shaped d [] meta Hs).
    same_text.
Qed.

(** A page with a view, a title and an empty [elements] mapping. *)
Lemma C10_empty_elements_witness :
  Crewai._call_format
    (JDict [("view", JStr "HOME"); ("elements", JDict []);
            ("meta", JDict [("title", JStr "X")])])
    = Ok (("URL: unknown" ++ LF ++ "Title: X" ++ LF ++ LF ++ "HOME" ++ LF ++ LF)
          ++ "Interactive elements:" ++ LF)
  /\ Langchain._format
       (JDict [("view", JStr "HOME"); ("elements", JDict []);
               ("meta", JDict [("title", JStr "X")])])
    = Ok (("URL: unknown" ++ LF ++ "Title: X" ++ LF ++ "Refs: 0" ++ LF ++ LF
           ++ "HOME" ++ LF ++ LF)
          ++ "Interactive elements:" ++ LF).
Proof.
  apply (C10_empty_elements
           [("view", JStr "HOME"); ("elements", JDict []);
            ("meta", JDict [("title", JStr "X")])]
           [("title", JStr "X")]); reflexivity.
Defined.

(* ================================================================== *)
(** ** The two navigate tools on one response *)

(** C1, as stated, fails: on the same mocked response (the example page,
    status 200) the two navigate tools return different texts. *)
Lemma C1_navigate_outputs_differ :
  fst (Crewai.run 0 Crewai.TextWebBrowseTool (Crewai.Navigate "http://x")
         (mock (json_reply 200 home_page)) (mkWorld 2 []))
  <> fst (Langchain.tool_func (Langchain.mkClient "http://localhost:3000" 1)
            (Langchain.Navigate "http://x")
            (mock (json_reply 200 home_page)) (mkWorld 2 [])).
Proof.
  vm_compute. discriminate.
Qed.

(** C1 (amended): on the same reply the two navigate tools either raise
    the same exception or both return a text, and then the LangChain text
    is the CrewAI text with the line [Refs: n] inserted after the title
    line, [n] being [meta.totalRefs] of the response, 0 when absent. *)
Theorem C1_navigate_outputs_differ_by_refs_line (rp : reply) (url : string)
  (s : nat) (self : Crewai.BaseTool) (client : Langchain.TextWebClient)
  (w1 w2 : world) :
  match fst (Crewai.run s self (Crewai.Navigate url) (mock rp) w1),
        fst (Langchain.tool_func client (Langchain.Navigate url) (mock rp) w2) with
  | Raise e1, Raise e2 => e1 = e2
  | Ok a, Ok b =>
      exists r v meta tail,
        rp = Replied r /\ decoded r = Some v
        /\ py_get v "meta" (JDict []) = Ok (JDict meta)
        /\ a = header meta ++ tail
        /\ b = header meta ++ refs_line meta ++ tail
  | _, _ => False
  end.
Proof.
  rewrite crewai_run_spec, langchain_tool_spec. cbn [fst]. unfold mock.
  destruct rp as [r|f]; [|reflexivity].
  unfold handle.
  destruct ((400 <=? status_code r) && (status_code r <? 600))%Z; [reflexivity|].
  destruct (decoded r) as [v|] eqn:Hv; [|reflexivity].
  pose proof (format_relation v) as H.
  destruct (Crewai._call_format v) as [a|e1], (Langchain._format v) as [b|e2];
    try exact H.
  destruct H as (meta & tail & Hm & Ha & Hb).
  exists r, v, meta, tail. repeat split; assumption.
Qed.

(* ================================================================== *)
(** ** Requests and failures *)

(** C4, as stated, fails: a response with status 300, which is not 2xx,
    and a JSON body is rendered like any other; no exception is raised. *)
Lemma C4_status_300_is_rendered :
  fst (Crewai.run 0 Crewai.TextWebBrowseTool (Crewai.Navigate "http://x")
         (mock (json_reply 300 home_page)) (mkWorld 1 []))
  = Ok home_text
  /\ fst (Langchain.tool_func (Langchain.mkClient "http://localhost:3000" 0)
            (Langchain.Navigate "http://x")
            (mock (json_reply 300 home_page)) (mkWorld 1 []))
  = Ok home_text_refs.
Proof.
  split; reflexivity.
Qed.

(** C4 (amended): every tool call of either adapter makes exactly one
    request, and its outcome follows from the reply alone: a transport
    failure raises the transport exception; a 4xx or 5xx status raises
    [HTTPError], which holds the response (status and body); any other
    status with a body that is no JSON raises [JSONDecodeError], which
    holds the body; any other status, 2xx or not, with a JSON body is
    rendered.  The three exceptions are of distinct classes, and nothing is
    sent again after a failure. *)
Theorem C4_failures_propagate (srv : server) (w : world) (s : nat)
  (self : Crewai.BaseTool) (c : Crewai.tool_call)
  (client : Langchain.TextWebClient) (c' : Langchain.tool_call) :
  (exists rq,
     snd (Crewai.run s self c srv w) = mkWorld (next_session w) (sent w ++ [rq])
     /\ match srv (sent w) rq with
        | Failed f => fst (Crewai.run s self c srv w) = Raise (RequestException f)
        | Replied r =>
            if ((400 <=? status_code r) && (status_code r <? 600))%Z
            then fst (Crewai.run s self c srv w) = Raise (HTTPError r)
            else match decoded r with
                 | None =>
                     fst (Crewai.run s self c srv w) = Raise (JSONDecodeError (text r))
                 | Some v => fst (Crewai.run s self c srv w) = Crewai._call_format v
                 end
        end)
  /\ (exists rq,
        snd (Langchain.tool_func client c' srv w)
        = mkWorld (next_session w) (sent w ++ [rq])
        /\ match srv (sent w) rq with
           | Failed f =>
               fst (Langchain.tool_func client c' srv w) = Raise (RequestException f)
           | Replied r =>
               if ((400 <=? status_code r) && (status_code r <? 600))%Z
               then fst (Langchain.tool_func client c' srv w) = Raise (HTTPError r)
               else match decoded r with
                    | None =>
                        fst (Langchain.tool_func client c' srv w)
                        = Raise (JSONDecodeError (text r))
                    | Some v =>
                        fst (Langchain.tool_func client c' srv w) = Langchain._format v
                    end
           end)
  /\ (forall f r doc,
        RequestException f <> HTTPError r
        /\ RequestException f <> JSONDecodeError doc
        /\ HTTPError r <> JSONDecodeError doc).
Proof.
  split; [|split].
  - exists (crewai_request s c). rewrite crewai_run_spec. cbn [fst snd].
    split; [reflexivity|]. unfold handle.
    destruct (srv (sent w) (crewai_request s c)) as [r|f]; [|reflexivity].
    destruct ((400 <=? status_code r) && (status_code r <? 600))%Z; [reflexivity|].
    destruct (decoded r); reflexivity.
  - exists (langchain_request client c'). rewrite langchain_tool_spec. cbn [fst snd].
    split; [reflexivity|]. unfold handle.
    destruct (srv (sent w) (langchain_request client c')) as [r|f]; [|reflexivity].
    destruct ((400 <=? status_code r) && (status_code r <? 600))%Z; [reflexivity|].
    destruct (decoded r); reflexivity.
  - intros f r doc. repeat split; discriminate.
Qed.

(** C5: every tool call of either adapter makes exactly one request, to
    the base URL followed by the path of its action; the snapshot action
    makes a GET with no body, each of the five others a POST with a JSON
    object as body; the six paths are pairwise distinct; and a POST of
    [_call] without data carries the empty object. *)
Theorem C5_method_path_body (srv : server) (w : world) (s : nat)
  (self : Crewai.BaseTool) (c : Crewai.tool_call)
  (client : Langchain.TextWebClient) (c' : Langchain.tool_call) :
  (exists rq,
     sent (snd (Crewai.run s self c srv w)) = (sent w ++ [rq])%list
     /\ rq_url rq = "http://localhost:3000" ++ action_path (crewai_action c)
     /\ match crewai_action c with
        | ASnapshot => rq_method rq = GET /\ rq_json rq = None
        | _ => rq_method rq = POST /\ exists body, rq_json rq = Some (JDict body)
        end)
  /\ (exists rq,
        sent (snd (Langchain.tool_func client c' srv w)) = (sent w ++ [rq])%list
        /\ rq_url rq = Langchain.base_url client ++ action_path (langchain_action c')
        /\ match langchain_action c' with
           | ASnapshot => rq_method rq = GET /\ rq_json rq = None
           | _ => rq_method rq = POST /\ exists body, rq_json rq = Some (JDict body)
           end)
  /\ (forall a b, a = b \/ action_path a <> action_path b)
  /\ (forall endpoint base_url,
        exists rq,
          sent (snd (Crewai._call s endpoint None None base_url srv w)) = (sent w ++ [rq])%list
          /\ rq_method rq = POST /\ rq_json rq = Some (JDict [])).
Proof.
  split; [|split; [|split]].
  - exists (crewai_request s c). rewrite crewai_run_spec. cbn [snd after_call sent].
    split; [reflexivity|]. split; [destruct c; reflexivity|].
    destruct c; cbn; split; try reflexivity; eexists; reflexivity.
  - exists (langchain_request client c'). rewrite langchain_tool_spec.
    cbn [snd after_call sent].
    split; [reflexivity|]. split; [destruct c'; reflexivity|].
    destruct c'; cbn; split; try reflexivity; eexists; reflexivity.
  - intros a b. destruct a, b; (left; reflexivity) || (right; discriminate).
  - intros endpoint base_url.
    exists (mkRequest s POST
              (rstrip_slash (default base_url Crewai.DEFAULT_BASE_URL) ++ endpoint)
              (Some (JDict [])) 30).
    unfold Crewai._call. change (default None "POST" =? "GET")%string with false.
    cbv iota. unfold session_post. rewrite send_then. cbn [snd after_call sent].
    repeat split.
Qed.

(** C6, as stated, fails for the CrewAI adapter: its scroll tool takes a
    direction only, and the body it posts has no [amount]. *)
Lemma C6_crewai_scroll_sends_no_amount :
  exists body,
    sent (snd (Crewai.run 0 Crewai.TextWebScrollTool (Crewai.Scroll "down")
                 (mock (json_reply 200 home_page)) (mkWorld 1 [])))
    = [mkRequest 0 POST "http://localhost:3000/scroll" (Some (JDict body)) 30]
    /\ dict_has body "direction" = true
    /\ dict_has body "amount" = false.
Proof.
  exists [("direction", JStr "down")]. repeat split.
Qed.

(** C6 (amended): the scroll tool of the LangChain adapter takes a
    direction and an optional amount, and posts to [/scroll] the object
    with that direction and that amount, 1 when the caller gives none; the
    scroll tool of the CrewAI adapter takes a direction only and posts the
    object with that direction and nothing else. *)
Theorem C6_scroll_body (srv : server) (w : world) (s : nat) (self : Crewai.BaseTool)
  (client : Langchain.TextWebClient) (direction : string) (amount : option Z) :
  sent (snd (Langchain.tool_func client (Langchain.Scroll direction amount) srv w))
  = (sent w
    ++ [mkRequest (Langchain.session client) POST
          (Langchain.base_url client ++ "/scroll")
          (Some (JDict [("direction", JStr direction);
                        ("amount", JInt match amount with
                                        | Some n => n
                                        | None => 1
                                        end)]))
          30])%list
  /\ sent (snd (Crewai.run s self (Crewai.Scroll direction) srv w))
     = (sent w
        ++ [mkRequest s POST "http://localhost:3000/scroll"
              (Some (JDict [("direction", JStr direction)])) 30])%list.
Proof.
  rewrite langchain_tool_spec, crewai_run_spec. split; reflexivity.
Qed.

(** C7, as stated, fails for the CrewAI adapter: no tool object makes its
    request to another base URL than the default one. *)
Lemma C7_crewai_base_url_fixed :
  ~ exists self : Crewai.BaseTool,
      exists rq,
        sent (snd (Crewai.run 0 self (Crewai.Navigate "http://x")
                     (mock (json_reply 200 home_page)) (mkWorld 1 [])))
        = [rq]
        /\ rq_url rq = "http://textweb.example:4000/navigate".
Proof.
  intros (self & rq & Hs & Hu). rewrite crewai_run_spec in Hs.
  cbn [snd after_call sent app] in Hs.
  injection Hs as <-. cbn in Hu. discriminate Hu.
Qed.

(** C7 (amended): the tools made by the LangChain factory send every
    request to the base URL given to the factory, [http://localhost:3000]
    when none is given, with its trailing slashes removed, followed by the
    path of the action; the CrewAI tools send every request to
    [http://localhost:3000] followed by the path of the action, whatever
    the tool object.  Nothing else enters the URL. *)
Theorem C7_request_url (srv : server) (w : world) (base_url : option string)
  (c' : Langchain.tool_call) (s : nat) (self : Crewai.BaseTool)
  (c : Crewai.tool_call) :
  (exists rq,
     sent (snd ((tool <- Langchain.get_textweb_tools base_url ;; tool c') srv w))
     = (sent w ++ [rq])%list
     /\ rq_url rq
        = rstrip_slash match base_url with
                       | Some b => b
                       | None => "http://localhost:3000"
                       end
          ++ action_path (langchain_action c'))
  /\ (exists rq,
        sent (snd (Crewai.run s self c srv w)) = (sent w ++ [rq])%list
        /\ rq_url rq = "http://localhost:3000" ++ action_path (crewai_action c)).
Proof.
  split.
  - cbn [bind M_monad]. rewrite get_textweb_tools_spec, langchain_tool_spec.
    eexists. cbn [snd after_call sent]. split; [reflexivity|].
    destruct base_url, c'; reflexivity.
  - exists (crewai_request s c). rewrite crewai_run_spec.
    cbn [snd after_call sent]. split; [reflexivity|]. destruct c; reflexivity.
Qed.

(* ================================================================== *)
(** ** Sessions *)

(** C9, as stated, fails for the CrewAI adapter: two distinct tool objects
    send their requests through the same session, the one created when the
    module is loaded. *)
Lemma C9_crewai_tools_share_session :
  Crewai.TextWebBrowseTool <> Crewai.TextWebClickTool
  /\ map rq_session
       (sent (snd ((s <- Crewai.load_module ;;
                    _ <- Crewai.run s Crewai.TextWebBrowseTool
                           (Crewai.Navigate "http://x") ;;
                    Crewai.run s Crewai.TextWebClickTool (Crewai.Click 1))
                     (mock (json_reply 200 home_page)) initial_world)))
     = [0%nat; 0%nat].
Proof.
  split; [discriminate | reflexivity].
Qed.

(** C9 (amended): every request of a tool made by one call of the
    LangChain factory goes through the session of the client created by
    that call, which no tool call replaces; each call of the factory
    creates a session of its own, so the tools of two calls use different
    sessions.  Every request of every CrewAI tool object goes through the
    single module-level session. *)
Theorem C9_sessions (srv : server) (w : world) (s : nat) (self : Crewai.BaseTool)
  (c : Crewai.tool_call) (client : Langchain.TextWebClient)
  (c' : Langchain.tool_call) (base_url base_url' : option string) :
  (exists rq,
     snd (Langchain.tool_func client c' srv w)
     = mkWorld (next_session w) (sent w ++ [rq])
     /\ rq_session rq = Langchain.session client)
  /\ (exists client1 client2 w1 w2,
        Langchain.get_textweb_tools base_url srv w
        = (Ok (Langchain.tool_func client1), w1)
        /\ Langchain.get_textweb_tools base_url' srv w1
           = (Ok (Langchain.tool_func client2), w2)
        /\ Langchain.session client1 = next_session w
        /\ sent w1 = sent w /\ sent w2 = sent w
        /\ Langchain.session client1 <> Langchain.session client2)
  /\ (exists rq,
        snd (Crewai.run s self c srv w) = mkWorld (next_session w) (sent w ++ [rq])
        /\ rq_session rq = s).
Proof.
  split; [|split].
  - exists (langchain_request client c'). rewrite langchain_tool_spec.
    split; [reflexivity | destruct c'; reflexivity].
  - rewrite get_textweb_tools_spec. eexists. eexists. eexists. eexists.
    split; [reflexivity|]. rewrite get_textweb_tools_spec.
    split; [reflexivity|]. cbn. repeat split. apply Nat.neq_succ_diag_r.
  - exists (crewai_request s c). rewrite crewai_run_spec.
    split; [reflexivity | destruct c; reflexivity].
Qed.

(* ================================================================== *)
(** ** The base URL *)

Lemma rstrip_slashes_only (n : nat) : rstrip_slash (slashes n) = EmptyString.
Proof.
  induction n as [|n IH]; cbn; [reflexivity|]. rewrite IH. reflexivity.
Qed.

Lemma rstrip_slash_append (s : string) (n : nat) :
  rstrip_slash (s ++ slashes n) = rstrip_slash s.
Proof.
  induction s as [|c r IH]; cbn.
  - apply rstrip_slashes_only.
  - rewrite IH. reflexivity.
Qed.

Lemma ends_with_slash_cons (c : ascii) (r p : string) :
  String c r = p ++ String slash EmptyString ->
  (r = EmptyString /\ c = slash) \/ exists p', r = p' ++ String slash EmptyString.
Proof.
  destruct p as [|c' p']; cbn; intros H; injection H as Hc Hr.
  - left. split; assumption.
  - right. exists p'. exact Hr.
Qed.

(** X1: [rstrip('/')] removes a run of slashes from the end of the text,
    keeps what is before it, and leaves no slash at the end. *)
Theorem X1_rstrip_slash_spec (s : string) :
  (exists n, s = rstrip_slash s ++ slashes n)
  /\ (forall p, rstrip_slash s <> p ++ String slash EmptyString).
Proof.
  induction s as [|c r [[n Hn] Hend]].
  - split; [exists 0%nat; reflexivity|]. intros [|c p]; discriminate.
  - cbn [rstrip_slash]. destruct (rstrip_slash r) as [|a r'] eqn:Hr.
    + cbn in Hn. destruct (Ascii.eqb_spec c slash) as [->|Hc].
      * split; [exists (S n); cbn; now rewrite <- Hn|].
        intros [|c p]; discriminate.
      * split; [exists n; cbn; now rewrite <- Hn|].
        intros p Hp. apply ends_with_slash_cons in Hp as [[_ Hp]|[p' Hp]].
        -- contradiction.
        -- destruct p'; discriminate.
    + split; [exists n; cbn; now rewrite Hn at 1|].
      intros p Hp. apply ends_with_slash_cons in Hp as [[Hp _]|[p' Hp]].
      * discriminate.
      * exact (Hend p' Hp).
Qed.

(** X2: slashes at the end of the base URL change nothing: a client, the
    tools of the factory and [_call] behave the same with [b] and with [b]
    followed by any number of slashes. *)
Theorem X2_trailing_slashes_ignored (b : string) (n : nat) (srv : server) (w : world)
  (s : nat) (endpoint : string) (data : option pydict) (method : option string) :
  Langchain.__init__ (Some (b ++ slashes n)) srv w = Langchain.__init__ (Some b) srv w
  /\ Langchain.get_textweb_tools (Some (b ++ slashes n)) srv w
     = Langchain.get_textweb_tools (Some b) srv w
  /\ Crewai._call s endpoint data method (Some (b ++ slashes n)) srv w
     = Crewai._call s endpoint data method (Some b) srv w.
Proof.
  split; [|split].
  - unfold Langchain.__init__. cbn [default]. rewrite rstrip_slash_append. reflexivity.
  - rewrite !get_textweb_tools_spec. cbn [default].
    rewrite rstrip_slash_append. reflexivity.
  - unfold Crewai._call. cbn [default]. rewrite rstrip_slash_append. reflexivity.
Qed.

(* ================================================================== *)
(** ** The method and the data of [_call] *)

(** X3: [_call] makes a GET only for the method [GET] written so, and then
    sends no body, whatever [data] is; with any other method text it makes
    a POST whose body is [data], the empty object when [data] is absent. *)
Theorem X3_call_method_and_data (s : nat) (endpoint : string) (data : option pydict)
  (method : string) (base_url : option string) (srv : server) (w : world) :
  method <> "GET" ->
  sent (snd (Crewai._call s endpoint data (Some method) base_url srv w))
  = (sent w
     ++ [mkRequest s POST
           (rstrip_slash (default base_url "http://localhost:3000") ++ endpoint)
           (Some (JDict match data with
                        | Some d => d
                        | None => []
                        end))
           30])%list
  /\ sent (snd (Crewai._call s endpoint data (Some "GET") base_url srv w))
     = (sent w
        ++ [mkRequest s GET
              (rstrip_slash (default base_url "http://localhost:3000") ++ endpoint)
              None 30])%list.
Proof.
  intros Hm. split.
  - unfold Crewai._call. cbn [default].
    apply String.eqb_neq in Hm. rewrite Hm.
    unfold session_post. rewrite send_then. cbn [snd after_call sent].
    destruct data as [[|item d]|]; reflexivity.
  - unfold Crewai._call. cbn [default]. rewrite String.eqb_refl.
    unfold session_get. rewrite send_then. reflexivity.
Qed.

(** The method in lower case makes a POST. *)
Lemma X3_call_method_and_data_witness :
  sent (snd (Crewai._call 0 "/snapshot" None (Some "get") None
               (mock (json_reply 200 home_page)) initial_world))
  = [mkRequest 0 POST "http://localhost:3000/snapshot" (Some (JDict [])) 30].
Proof.
  apply (X3_call_method_and_data 0 "/snapshot" None "get" None
           (mock (json_reply 200 home_page)) initial_world).
  discriminate.
Defined.

(* ================================================================== *)
(** ** When the rendering raises *)

Lemma element_line_raise (item : string * json) (e : exn) :
  Crewai.element_line item = Raise e -> e = AttributeError.
Proof.
  destruct item as [ref [| | | | |d]]; cbn; intros H; congruence.
Qed.

Lemma element_line_ok (item : string * json) (line : string) :
  Crewai.element_line item = Ok line -> exists d, snd item = JDict d.
Proof.
  destruct item as [ref [| | | | |d]]; cbn; intros H; try discriminate.
  exists d. reflexivity.
Qed.

Lemma mapM_element_line_raise (l : pydict) (e : exn) :
  mapM Crewai.element_line l = Raise e -> e = AttributeError.
Proof.
  induction l as [|item l IH]; cbn [mapM bind res_monad]; [discriminate|].
  destruct (Crewai.element_line item) as [line|e'] eqn:Hi.
  - destruct (mapM Crewai.element_line l) as [lines|e'']; [discriminate|].
    intros H. injection H as <-. apply IH. reflexivity.
  - intros H. injection H as <-. exact (element_line_raise _ _ Hi).
Qed.

Lemma mapM_element_line_ok (l : pydict) (lines : list string) :
  mapM Crewai.element_line l = Ok lines -> exists items, l = elements_of items.
Proof.
  revert lines. induction l as [|[ref el] l IH]; intros lines.
  - intros _. exists []. reflexivity.
  - cbn [mapM bind res_monad].
    destruct (Crewai.element_line (ref, el)) as [line|e] eqn:Hi; [|discriminate].
    destruct (mapM Crewai.element_line l) as [lines'|e]; [|discriminate].
    intros _. destruct (element_line_ok _ _ Hi) as [d Hd].
    destruct (IH lines' eq_refl) as [items ->].
    cbn in Hd. subst el. exists ((ref, d) :: items). reflexivity.
Qed.

Lemma crewai_format_outcome (result : json) :
  match Crewai._call_format result with
  | Ok _ => exists d items meta, result = JDict d /\ snapshot_shape d items meta
  | Raise e => e = AttributeError
  end.
Proof.
  destruct result as [| | | | |d]; try reflexivity.
  unfold Crewai._call_format. cbn [py_get bind res_monad].
  destruct (dict_get d "elements" (JDict [])) as [| | | | |l] eqn:He;
    cbn [py_items bind res_monad]; try reflexivity.
  destruct (mapM Crewai.element_line l) as [lines|e] eqn:Hl;
    cbn [bind res_monad]; [|exact (mapM_element_line_raise _ _ Hl)].
  destruct (dict_get d "meta" (JDict [])) as [| | | | |meta] eqn:Hm;
    cbn [py_get bind res_monad]; try reflexivity.
  destruct (mapM_element_line_ok _ _ Hl) as [items ->].
  exists d, items, meta. split; [reflexivity|]. split; assumption.
Qed.

(** X4: in both adapters the rendering returns a text exactly when the
    decoded body is a dict whose [elements], if present, is a dict of dicts
    and whose [meta], if present, is a dict; on every other body it raises
    [AttributeError] and nothing else. *)
Theorem X4_format_succeeds_iff_shape (result : json) :
  ((exists text, Crewai._call_format result = Ok text)
   <-> exists d items meta, result = JDict d /\ snapshot_shape d items meta)
  /\ ((exists text, Langchain._format result = Ok text)
      <-> exists d items meta, result = JDict d /\ snapshot_shape d items meta)
  /\ ((forall text, Crewai._call_format result <> Ok text)
      <-> Crewai._call_format result = Raise AttributeError)
  /\ ((forall text, Langchain._format result <> Ok text)
      <-> Langchain._format result = Raise AttributeError).
Proof.
  pose proof (crewai_format_outcome result) as Hc.
  pose proof (format_relation result) as Hr.
  split; [|split; [|split]].
  - split.
    + intros [text H]. rewrite H in Hc. exact Hc.
    + intros (d & items & meta & -> & Hs).
      rewrite (crewai_format_shaped d items meta Hs). eexists. reflexivity.
  - split.
    + intros [text H]. rewrite H in Hr.
      destruct (Crewai._call_format result); [exact Hc | contradiction].
    + intros (d & items & meta & -> & Hs).
      rewrite (langchain_format_shaped d items meta Hs). eexists. reflexivity.
  - split.
    + intros H. destruct (Crewai._call_format result) as [text|e].
      * now contradiction (H text).
      * now subst e.
    + intros -> text. discriminate.
  - split.
    + intros H. destruct (Langchain._format result) as [text|e].
      * now contradiction (H text).
      * destruct (Crewai._call_format result) as [a|e']; [contradiction|].
        now subst.
    + intros -> text. discriminate.
Qed.

(** A body whose [elements] is a list: both renderings raise. *)
Lemma X4_format_succeeds_iff_shape_witness :
  Crewai._call_format (JDict [("view", JStr "V"); ("elements", JList [])])
  = Raise AttributeError
  /\ exists text, Langchain._format (JDict [("view", JStr "V")]) = Ok text.
Proof.
  split.
  - apply (X4_format_succeeds_iff_shape
             (JDict [("view", JStr "V"); ("elements", JList [])])).
    intros text. vm_compute. discriminate.
  - apply (X4_format_succeeds_iff_shape (JDict [("view", JStr "V")])).
    exists [("view", JStr "V")], [], []. repeat split.
Defined.

(** X5: when the reply has a status outside 400..599 and a JSON body that
    is not an object, every tool of both adapters raises [AttributeError],
    after its one request. *)
Theorem X5_non_object_body (r : response) (v : json) (srv : server) (w : world)
  (s : nat) (self : Crewai.BaseTool) (c : Crewai.tool_call)
  (client : Langchain.TextWebClient) (c' : Langchain.tool_call) :
  (forall rq, srv (sent w) rq = Replied r) ->
  ((400 <=? status_code r) && (status_code r <? 600))%Z = false ->
  decoded r = Some v ->
  (forall d, v <> JDict d) ->
  (exists rq, Crewai.run s self c srv w
              = (Raise AttributeError, mkWorld (next_session w) (sent w ++ [rq])))
  /\ (exists rq, Langchain.tool_func client c' srv w
                 = (Raise AttributeError, mkWorld (next_session w) (sent w ++ [rq]))).
Proof.
  intros Hsrv Hst Hv Hd.
  assert (Hc : Crewai._call_format v = Raise AttributeError).
  { destruct v as [| | | | |d]; try reflexivity. now contradiction (Hd d). }
  assert (Hl : Langchain._format v = Raise AttributeError).
  { destruct v as [| | | | |d]; try reflexivity. now contradiction (Hd d). }
  split.
  - exists (crewai_request s c). rewrite crewai_run_spec, Hsrv.
    unfold handle. rewrite Hst, Hv, Hc. reflexivity.
  - exists (langchain_request client c'). rewrite langchain_tool_spec, Hsrv.
    unfold handle. rewrite Hst, Hv, Hl. reflexivity.
Qed.

(** A reply [200] whose body is the JSON list [[]]. *)
Lemma X5_non_object_body_witness :
  exists rq,
    Crewai.run 0 Crewai.TextWebSnapshotTool Crewai.Snapshot
      (mock (json_reply 200 (JList []))) (mkWorld 1 [])
    = (Raise AttributeError, mkWorld 1 [rq]).
Proof.
  apply (X5_non_object_body (mkResponse 200 (json_text (JList [])) (Some (JList [])))
           (JList []) (mock (json_reply 200 (JList []))) (mkWorld 1 [])
           0%nat Crewai.TextWebSnapshotTool Crewai.Snapshot
           (Langchain.mkClient "http://localhost:3000" 0) (Langchain.Snapshot None)).
  - reflexivity.
  - reflexivity.
  - reflexivity.
  - discriminate.
Defined.

(* ================================================================== *)
(** ** Which parts of the body the rendering reads *)

(** X6: a default is written for a missing key only: a field that is
    present with the value [null] is written [None], in the header and in
    the element lines of both adapters. *)
Theorem X6_null_is_written_None (d : pydict) (items : list (string * pydict))
  (meta : pydict) :
  snapshot_shape d items meta ->
  exists url title lines,
    Crewai._call_format (JDict d)
      = Ok ("URL: " ++ url ++ LF ++ "Title: " ++ title ++ LF
            ++ page_body (dict_get d "view" (JStr EmptyString)) lines)
    /\ Langchain._format (JDict d)
      = Ok ("URL: " ++ url ++ LF ++ "Title: " ++ title ++ LF ++ refs_line meta
            ++ page_body (dict_get d "view" (JStr EmptyString)) lines)
    /\ (dict_get meta "url" (JStr EmptyString) = JNull -> url = "None")
    /\ (dict_get meta "title" (JStr EmptyString) = JNull -> title = "None")
    /\ Forall2
         (fun item line =>
            exists semantic text,
              line = "[" ++ fst item ++ "] " ++ semantic ++ ": " ++ text
              /\ (dict_get (snd item) "semantic" (JStr EmptyString) = JNull
                  -> semantic = "None")
              /\ (dict_get (snd item) "text" (JStr EmptyString) = JNull
                  -> text = "None"))
         items lines.
Proof.
  intros Hs.
  exists (py_str (dict_get meta "url" (JStr "unknown"))),
         (py_str (dict_get meta "title" (JStr "unknown"))),
         (map rendered_line items).
  split; [|split; [|split; [|split]]].
  - rewrite (crewai_format_shaped d items meta Hs). same_text.
  - rewrite (langchain_format_shaped d items meta Hs). same_text.
  - intros H. rewrite (dict_get_present _ _ _ (JStr "unknown") _ H); [reflexivity|].
    discriminate.
  - intros H. rewrite (dict_get_present _ _ _ (JStr "unknown") _ H); [reflexivity|].
    discriminate.
  - clear Hs. induction items as [|[ref e] items IH]; constructor; [|exact IH].
    exists (py_str (dict_get e "semantic" (JStr "?"))),
           (py_str (dict_get e "text" (JStr "(no text)"))).
    cbn [fst snd]. split; [reflexivity|]. split.
    + intros H. rewrite (dict_get_present _ _ _ (JStr "?") _ H); [reflexivity|].
      discriminate.
    + intros H. rewrite (dict_get_present _ _ _ (JStr "(no text)") _ H); [reflexivity|].
      discriminate.
Qed.

(** A page whose title and whose only element's text are [null]. *)
Lemma X6_null_is_written_None_witness :
  exists url semantic,
    Crewai._call_format
      (JDict [("elements", JDict [("3", JDict [("semantic", JStr "input");
                                               ("text", JNull)])]);
              ("meta", JDict [("title", JNull)])])
    = Ok ("URL: " ++ url ++ LF ++ "Title: None" ++ LF
          ++ page_body (JStr EmptyString) ["[3] " ++ semantic ++ ": None"]).
Proof.
  destruct (X6_null_is_written_None
              [("elements", JDict [("3", JDict [("semantic", JStr "input");
                                                ("text", JNull)])]);
               ("meta", JDict [("title", JNull)])]
              [("3", [("semantic", JStr "input"); ("text", JNull)])]
              [("title", JNull)])
    as (url & title & lines & Hc & _ & _ & Ht & Hl).
  - split; reflexivity.
  - inversion Hl as [|? l1 ? ls1 (s1 & t1 & E1 & _ & T1) Hl' Ea Eb]; subst.
    inversion Hl'; subst.
    exists url, s1. rewrite (Ht eq_refl), (T1 eq_refl) in Hc. exact Hc.
Defined.

(** A dict with distinct keys gives the same value for a key in whatever
    order its items are. *)
Lemma dict_get_permutation (d d' : pydict) (k : string) (default : json) :
  NoDup (map fst d) -> Permutation d d' ->
  dict_get d k default = dict_get d' k default.
Proof.
  intros Hnd Hp. induction Hp as [|[k1 v1] l l' Hp IH|[k1 v1] [k2 v2] l|l l' l'' Hp1 IH1 Hp2 IH2].
  - reflexivity.
  - cbn. inversion Hnd; subst. rewrite IH by assumption. reflexivity.
  - cbn. cbn in Hnd. inversion Hnd as [|? ? Hn1 Hnd']; subst.
    destruct (String.eqb_spec k1 k) as [->|H1];
      destruct (String.eqb_spec k2 k) as [->|H2]; try reflexivity.
    contradiction Hn1. left. reflexivity.
  - rewrite IH1 by assumption. apply IH2.
    apply (Permutation_NoDup (l := map fst l)); [|assumption].
    apply Permutation_map. exact Hp1.
Qed.

Lemma dict_get_skip (d1 d2 : pydict) (k k' : string) (v default : json) :
  k' <> k ->
  dict_get (d1 ++ (k', v) :: d2)%list k default = dict_get (d1 ++ d2)%list k default.
Proof.
  intros Hk. induction d1 as [|[k1 v1] d1 IH]; cbn.
  - apply String.eqb_neq in Hk. rewrite Hk. reflexivity.
  - rewrite IH. reflexivity.
Qed.

(** The renderings are functions of the three values they get from the
    body. *)
Lemma format_reads_three_keys (d d' : pydict) :
  (forall default, dict_get d "view" default = dict_get d' "view" default) ->
  (forall default, dict_get d "elements" default = dict_get d' "elements" default) ->
  (forall default, dict_get d "meta" default = dict_get d' "meta" default) ->
  Crewai._call_format (JDict d) = Crewai._call_format (JDict d')
  /\ Langchain._format (JDict d) = Langchain._format (JDict d').
Proof.
  intros Hv He Hm. unfold Crewai._call_format, Langchain._format.
  cbn [py_get bind res_monad]. rewrite Hv, He, Hm. split; reflexivity.
Qed.

(** X7: the order of the keys of the response object does not matter: two
    bodies with the same items in another order are rendered alike by both
    adapters. *)
Theorem X7_key_order_of_body_ignored (d d' : pydict) :
  NoDup (map fst d) -> Permutation d d' ->
  Crewai._call_format (JDict d) = Crewai._call_format (JDict d')
  /\ Langchain._format (JDict d) = Langchain._format (JDict d').
Proof.
  intros Hnd Hp.
  apply format_reads_three_keys; intros default;
    apply dict_get_permutation; assumption.
Qed.

(** The example page with [meta] first and [view] last. *)
Lemma X7_key_order_of_body_ignored_witness :
  Crewai._call_format
    (JDict [("view", JStr "HOME"); ("elements", JDict []); ("meta", JDict [])])
  = Crewai._call_format
      (JDict [("meta", JDict []); ("elements", JDict []); ("view", JStr "HOME")]).
Proof.
  apply (X7_key_order_of_body_ignored
           [("view", JStr "HOME"); ("elements", JDict []); ("meta", JDict [])]
           [("meta", JDict []); ("elements", JDict []); ("view", JStr "HOME")]).
  - cbn. repeat constructor; cbn; intuition discriminate.
  - apply perm_trans
      with (l' := [("elements", JDict []); ("view", JStr "HOME"); ("meta", JDict [])]).
    + apply perm_swap.
    + apply perm_trans
        with (l' := [("elements", JDict []); ("meta", JDict []); ("view", JStr "HOME")]).
      * apply perm_skip. apply perm_swap.
      * apply perm_swap.
Defined.

(** X8: keys of the response object other than [view], [elements] and
    [meta] are not read: an item with another key, anywhere in the body,
    changes the text of neither adapter. *)
Theorem X8_other_keys_ignored (d1 d2 : pydict) (k : string) (v : json) :
  k <> "view" -> k <> "elements" -> k <> "meta" ->
  Crewai._call_format (JDict (d1 ++ (k, v) :: d2)%list) = Crewai._call_format (JDict (d1 ++ d2)%list)
  /\ Langchain._format (JDict (d1 ++ (k, v) :: d2)%list) = Langchain._format (JDict (d1 ++ d2)%list).
Proof.
  intros Hv He Hm.
  apply format_reads_three_keys; intros default; apply dict_get_skip; assumption.
Qed.

(** A body with a [status] item between [view] and [meta]. *)
Lemma X8_other_keys_ignored_witness :
  Langchain._format
    (JDict [("view", JStr "HOME"); ("status", JStr "ok"); ("meta", JDict [])])
  = Langchain._format (JDict [("view", JStr "HOME"); ("meta", JDict [])]).
Proof.
  apply (X8_other_keys_ignored [("view", JStr "HOME")] [("meta", JDict [])]
           "status" (JStr "ok")); discriminate.
Defined.

(** X9: the CrewAI text does not show [meta.totalRefs]: with or without
    that item in [meta], and whatever its value, the text is the same;
    the LangChain text shows it in its [Refs] line. *)
Theorem X9_crewai_ignores_totalRefs (d d' : pydict) (items : list (string * pydict))
  (meta1 meta2 : pydict) (n : json) :
  snapshot_shape d items (meta1 ++ ("totalRefs", n) :: meta2)%list ->
  snapshot_shape d' items (meta1 ++ meta2)%list ->
  dict_get d "view" (JStr EmptyString) = dict_get d' "view" (JStr EmptyString) ->
  ~ In "totalRefs" (map fst meta1) ->
  Crewai._call_format (JDict d) = Crewai._call_format (JDict d')
  /\ Langchain._format (JDict d)
     = Ok (header (meta1 ++ meta2)%list ++ ("Refs: " ++ py_str n ++ LF)
           ++ page_body (dict_get d "view" (JStr EmptyString)) (map rendered_line items)).
Proof.
  intros Hs Hs' Hv Hn.
  rewrite (crewai_format_shaped _ _ _ Hs), (crewai_format_shaped _ _ _ Hs'),
    (langchain_format_shaped _ _ _ Hs), Hv.
  unfold header, refs_line.
  rewrite !(dict_get_skip meta1 meta2 _ "totalRefs") by discriminate.
  split; [reflexivity|].
  assert (Ht : dict_get (meta1 ++ ("totalRefs", n) :: meta2)%list "totalRefs" (JInt 0) = n).
  { clear - Hn. induction meta1 as [|[k x] meta1 IH]; cbn; [reflexivity|].
    destruct (String.eqb_spec k "totalRefs") as [->|Hk].
    - contradiction Hn. left. reflexivity.
    - apply IH. intros Hin. apply Hn. right. exact Hin. }
  rewrite Ht. reflexivity.
Qed.

(** The example page with and without [totalRefs]. *)
Lemma X9_crewai_ignores_totalRefs_witness :
  Crewai._call_format home_page
  = Crewai._call_format
      (JDict [("view", JStr "HOME");
              ("elements", JDict [("1", JDict [("semantic", JStr "button");
                                               ("text", JStr "Login")])]);
              ("meta", JDict [("url", JStr "http://x"); ("title", JStr "X")])]).
Proof.
  apply (X9_crewai_ignores_totalRefs
           [("view", JStr "HOME");
            ("elements", JDict [("1", JDict [("semantic", JStr "button");
                                             ("text", JStr "Login")])]);
            ("meta", JDict [("url", JStr "http://x"); ("title", JStr "X");
                            ("totalRefs", JInt 1)])]
           [("view", JStr "HOME");
            ("elements", JDict [("1", JDict [("semantic", JStr "button");
                                             ("text", JStr "Login")])]);
            ("meta", JDict [("url", JStr "http://x"); ("title", JStr "X")])]
           [("1", [("semantic", JStr "button"); ("text", JStr "Login")])]
           [("url", JStr "http://x"); ("title", JStr "X")] [] (JInt 1)).
  - split; reflexivity.
  - split; reflexivity.
  - reflexivity.
  - cbn. intuition discriminate.
Defined.

(** X10: the text of an element is written as it is, a newline included:
    one element whose text holds a newline followed by what looks like an
    element line is rendered, by both adapters, exactly like two
    elements. *)
Theorem X10_text_is_not_escaped (view : json) (meta : pydict)
  (ref1 semantic1 text1 ref2 semantic2 text2 : string) :
  let page items :=
    JDict [("view", view); ("elements", JDict (elements_of items));
           ("meta", JDict meta)] in
  let element semantic text := [("semantic", JStr semantic); ("text", JStr text)] in
  let forged := text1 ++ LF ++ "[" ++ ref2 ++ "] " ++ semantic2 ++ ": " ++ text2 in
  Crewai._call_format (page [(ref1, element semantic1 forged)])
  = Crewai._call_format (page [(ref1, element semantic1 text1);
                               (ref2, element semantic2 text2)])
  /\ Langchain._format (page [(ref1, element semantic1 forged)])
     = Langchain._format (page [(ref1, element semantic1 text1);
                                (ref2, element semantic2 text2)]).
Proof.
  intros page element forged.
  assert (Hs : forall items, snapshot_shape
                 [("view", view); ("elements", JDict (elements_of items));
                  ("meta", JDict meta)] items meta)
    by (intros items; split; reflexivity).
  unfold page.
  rewrite !(crewai_format_shaped _ _ _ (Hs _)), !(langchain_format_shaped _ _ _ (Hs _)).
  assert (Hl : join LF (map rendered_line [(ref1, element semantic1 forged)])
               = join LF (map rendered_line [(ref1, element semantic1 text1);
                                             (ref2, element semantic2 text2)])).
  { unfold forged, element, rendered_line, join.
    cbn [map String.concat fst snd dict_get String.eqb Ascii.eqb Bool.eqb py_str].
    rewrite ?append_assoc. reflexivity. }
  unfold page_body. rewrite Hl. split; reflexivity.
Qed.

(* ================================================================== *)
(** ** Programs over the adapters *)

Lemma known_request_later (w w' : world) (rq : request) :
  (next_session w <= next_session w')%nat ->
  known_request w rq -> known_request w' rq.
Proof.
  intros Hle (Ht & Hs & Ha). split; [exact Ht|]. split; [lia | exact Ha].
Qed.

Lemma known_requests_later (w w' : world) :
  (next_session w <= next_session w')%nat -> sent w' = sent w ->
  Forall (known_request w) (sent w) -> Forall (known_request w') (sent w').
Proof.
  intros Hle -> H. apply Forall_forall. intros rq Hin.
  apply (known_request_later w); [exact Hle|].
  exact (proj1 (Forall_forall _ _) H rq Hin).
Qed.

Lemma known_requests_after_call (w : world) (rq : request) :
  known_request w rq ->
  Forall (known_request w) (sent w) ->
  Forall (known_request (after_call w rq)) (sent (after_call w rq)).
Proof.
  intros Hrq H. cbn [after_call sent]. apply Forall_app. split.
  - apply Forall_forall. intros rq' Hin.
    apply (known_request_later w); [reflexivity|].
    exact (proj1 (Forall_forall _ _) H rq' Hin).
  - constructor; [|constructor].
    apply (known_request_later w); [reflexivity | exact Hrq].
Qed.

Lemma crewai_request_known (w : world) (s : nat) (c : Crewai.tool_call) :
  (s < next_session w)%nat -> known_request w (crewai_request s c).
Proof.
  intros Hs. split; [destruct c; reflexivity|]. split; [destruct c; exact Hs|].
  exists (crewai_action c), "http://localhost:3000".
  destruct c; cbn; repeat split; eexists; reflexivity.
Qed.

Lemma langchain_request_known (w : world) (client : Langchain.TextWebClient)
  (c : Langchain.tool_call) :
  (Langchain.session client < next_session w)%nat ->
  known_request w (langchain_request client c).
Proof.
  intros Hs. split; [destruct c; reflexivity|]. split; [destruct c; exact Hs|].
  exists (langchain_action c), (Langchain.base_url client).
  destruct c; cbn; repeat split; eexists; reflexivity.
Qed.

(** X11: whatever a program does with the two adapters (load the CrewAI
    module, make clients and tool sets, call tools in any order, with any
    replies and failures), every request it has made has timeout 30, went
    through a session created before, and has the method and path of one
    of the six actions, with a JSON object as body unless it is the GET of
    the snapshot. *)
Theorem X11_every_request_is_known (srv : server) (w : world) :
  reachable srv w -> Forall (known_request w) (sent w).
Proof.
  induction 1 as [|w w' Hr IH Hstep].
  - constructor.
  - destruct Hstep as [|s self c Hs|base_url|base_url|client c Hs].
    + apply (known_requests_later w); [cbn; lia | reflexivity | exact IH].
    + rewrite crewai_run_spec. cbn [snd].
      apply known_requests_after_call; [|exact IH].
      apply crewai_request_known. exact Hs.
    + rewrite get_textweb_tools_spec.
      apply (known_requests_later w); [cbn; lia | reflexivity | exact IH].
    + apply (known_requests_later w); [cbn; lia | reflexivity | exact IH].
    + rewrite langchain_tool_spec. cbn [snd].
      apply known_requests_after_call; [|exact IH].
      apply langchain_request_known. exact Hs.
Qed.

(** The world after loading the CrewAI module and one scroll whose reply
    is a failure of the transport. *)
Lemma X11_every_request_is_known_witness :
  Forall (known_request (mkWorld 1 [mkRequest 0 POST "http://localhost:3000/scroll"
                                      (Some (JDict [("direction", JStr "up")])) 30]))
    [mkRequest 0 POST "http://localhost:3000/scroll"
       (Some (JDict [("direction", JStr "up")])) 30].
Proof.
  apply (X11_every_request_is_known (mock (Failed ReadTimeout))
           (mkWorld 1 [mkRequest 0 POST "http://localhost:3000/scroll"
                         (Some (JDict [("direction", JStr "up")])) 30])).
  apply (reach_step _ (mkWorld 1 [])).
  - apply (reach_step _ initial_world); [apply reach_initial|].
    exact (step_load_module _ initial_world).
  - exact (step_crewai_tool (mock (Failed ReadTimeout)) (mkWorld 1 []) 0
             Crewai.TextWebScrollTool (Crewai.Scroll "up") (Nat.lt_0_succ 0)).
Defined.

(** X12: tools/langchain.py run as a script.  When the imports at the top
    of the file fail, as they do when the file is launched by its path, the
    run ends with [ImportError]: no client is made and no request.  When
    they succeed, the script makes one client at the default base URL and
    one request, a POST to [/navigate] for [sys.argv[1]], or for
    [https://example.com] when no argument is given; further arguments
    are not read. *)
Theorem X12_script_navigates (imports_succeed : bool) (argv : list string)
  (srv : server) (w : world) :
  let url := match argv with
             | _ :: url :: _ => url
             | _ => "https://example.com"
             end in
  if imports_succeed
  then langchain_script true argv srv w
       = (Ran (fst (Langchain.navigate
                      (Langchain.mkClient "http://localhost:3000" (next_session w)) url
                      srv (mkWorld (S (next_session w)) (sent w)))),
          mkWorld (S (next_session w))
            (sent w ++ [mkRequest (next_session w) POST "http://localhost:3000/navigate"
                          (Some (JDict [("url", JStr url)])) 30]))
  else langchain_script false argv srv w = (ImportError, w).
Proof.
  destruct imports_succeed; [|reflexivity].
  assert (H : forall url,
             (client <- Langchain.__init__ None ;; Langchain.navigate client url) srv w
             = Langchain.navigate
                 (Langchain.mkClient "http://localhost:3000" (next_session w)) url
                 srv (mkWorld (S (next_session w)) (sent w))) by reflexivity.
  destruct argv as [|prog [|url rest]]; cbn zeta; unfold langchain_script, langchain_main;
    cbn [List.length Nat.ltb Nat.leb nth]; rewrite H;
    change (Langchain.navigate ?cl ?u) with (Langchain.tool_func cl (Langchain.Navigate u));
    rewrite langchain_tool_spec; reflexivity.
Qed.

(** X13: with nothing configured, the two adapters make the same request
    for the same tool and arguments, except for the scroll tool, where the
    LangChain body has one more item, [amount], 1. *)
Theorem X13_same_requests_by_default (c : Crewai.tool_call) (self : Crewai.BaseTool)
  (srv : server) (w : world) :
  let crewai := (s <- Crewai.load_module ;; Crewai.run s self c) srv w in
  let langchain :=
    (tool <- Langchain.get_textweb_tools None ;; tool (to_langchain c)) srv w in
  match c with
  | Crewai.Scroll direction =>
      exists body,
        snd crewai
        = mkWorld (S (next_session w))
            (sent w ++ [mkRequest (next_session w) POST "http://localhost:3000/scroll"
                          (Some (JDict body)) 30])
        /\ snd langchain
           = mkWorld (S (next_session w))
               (sent w ++ [mkRequest (next_session w) POST "http://localhost:3000/scroll"
                             (Some (JDict (body ++ [("amount", JInt 1)]))) 30])
  | _ => snd crewai = snd langchain
  end.
Proof.
  cbn zeta. cbn [bind M_monad].
  rewrite get_textweb_tools_spec, langchain_tool_spec.
  unfold Crewai.load_module, Session. rewrite crewai_run_spec.
  destruct c; try reflexivity.
  exists [("direction", JStr direction)]. split; reflexivity.
Qed.
